(** * Drone_FoodFast: delivery tracking and drone management services

    A shallow embedding of [delivery_service/main.py] and
    [drone_service/main.py].

    - Python [float] is IEEE-754 binary64: Rocq's primitive [float], whose
      operations are specified by [SpecFloat] through [FloatAxioms].
    - Python [int] is [Z].
    - A raised exception is the [Raise] branch of [result].
    - The transcendental functions of the [math] module have no executable
      specification; they are the fields of a [pymath] record and every
      property that depends on them says which facts about them it uses.
    - [async] handlers are run sequentially: one handler from its entry to its
      return, nothing interleaved at an [await]. *)

From Stdlib Require Import ZArith Floats Ascii String.
From stdpp Require Import gmap strings list.

Local Open Scope Z_scope.
#[local] Set Warnings "-inexact-float".

(** ** Python runtime *)

Inductive exn : Type :=
| ZeroDivisionError
| ValueError (msg : string)
| OverflowError
| TypeError
| KeyError
| ConnectError
| JSONDecodeError
| WebSocketDisconnect
| SQLAlchemyError
| HTTPException (status_code : Z) (detail : string).

Inductive result (A : Type) : Type :=
| Ok (a : A)
| Raise (e : exn).
Arguments Ok {A} a.
Arguments Raise {A} e.

#[global] Instance result_ret : MRet result := fun _ a => Ok a.
#[global] Instance result_bind : MBind result := fun _ _ f m =>
  match m with
  | Ok a => f a
  | Raise e => Raise e
  end.
#[global] Instance result_fmap : FMap result := fun _ _ f m =>
  match m with
  | Ok a => Ok (f a)
  | Raise e => Raise e
  end.

(** [range(n)] *)
Definition range (n : Z) : list Z := Z.of_nat <$> seq 0 (Z.to_nat n).

(** [a / b] on two [int]s: the quotient rounded once to the nearest binary64
    (ties to even), [ZeroDivisionError] for [b == 0], [OverflowError] when the
    rounded quotient is not finite. *)
Definition true_div (a b : Z) : result float :=
  match b with
  | 0 => Raise ZeroDivisionError
  | _ =>
    let s := xorb (a <? 0) (b <? 0) in
    match a with
    | 0 => Ok (SF2Prim (S754_zero s))
    | _ =>
      let '(q, e, l) := SFdiv_core_binary prec emax (Z.abs a) 0 (Z.abs b) 0 in
      match binary_round_aux prec emax s q e l with
      | S754_infinity _ => Raise OverflowError
      | r => Ok (SF2Prim r)
      end
    end
  end.

(** [int(x)] on a [float]: truncation towards zero. *)
Definition int_of_float (x : float) : result Z :=
  match Prim2SF x with
  | S754_nan => Raise (ValueError "cannot convert float NaN to integer")
  | S754_infinity _ => Raise OverflowError
  | S754_zero _ => Ok 0
  | S754_finite s m e => Ok (cond_Zopp s (Z.shiftl (Z.pos m) e))
  end.

(** [float(z)] for an [int] that a Float column or a mixed operation
    converts. *)
Definition float_of_int (z : Z) : float :=
  SF2Prim (binary_normalize prec emax z 0 false).

(** ** delivery_service/main.py: route planner *)

Record waypoint : Type := Waypoint {
  wp_sequence : Z;
  wp_latitude : float;
  wp_longitude : float;
  wp_estimated_time : Z
}.

(** One iteration of the loop of [generate_waypoints]. *)
Definition waypoint_at (start_lat start_lng end_lat end_lng : float)
    (num_points i : Z) : result waypoint :=
  ratio ← true_div i num_points;
  let lat := (start_lat + (end_lat - start_lat) * ratio)%float in
  let lng := (start_lng + (end_lng - start_lng) * ratio)%float in
  r ← true_div i num_points;
  t ← int_of_float (r * 60)%float;
  mret (Waypoint i lat lng t).

(** [for x in xs: acc.append(f(x))], the first exception ends the loop. *)
Fixpoint for_append {A B : Type} (f : A → result B) (xs : list A)
    (acc : list B) : result (list B) :=
  match xs with
  | [] => Ok acc
  | x :: xs' => b ← f x; for_append f xs' (acc ++ [b])
  end.

Definition generate_waypoints (start_lat start_lng end_lat end_lng : float)
    (num_points : Z) : result (list waypoint) :=
  for_append (waypoint_at start_lat start_lng end_lat end_lng num_points)
    (range (num_points + 1)) [].

(** ** startup_event (both services)

    [outcomes] says for the coming calls of [Base.metadata.create_all]
    whether they succeed; once it is used up they do. The loop is run with a
    fuel; [None] is a loop that did not end within it. The result is the
    final [retry_count] and what happened, in order. *)

Inductive startup_step : Type :=
| CreateAllOk
| CreateAllFailed
| StartupSleep (seconds : Z).

Fixpoint startup_loop (fuel : nat) (max_retries retry_count : Z) (outcomes : list bool)
    : option (Z * list startup_step) :=
  if retry_count <? max_retries then
    match fuel with
    | O => None
    | S fuel' =>
      match outcomes with
      | false :: rest =>
        match startup_loop fuel' max_retries (retry_count + 1) rest with
        | Some (c, steps) => Some (c, CreateAllFailed :: StartupSleep 2 :: steps)
        | None => None
        end
      | _ => Some (retry_count, [CreateAllOk])
      end
    end
  else Some (retry_count, []).

Definition startup_event (outcomes : list bool) : option (Z * list startup_step) :=
  startup_loop 30 30 0 outcomes.

(** How many calls fail before the first that succeeds. *)
Fixpoint leading_failures (outcomes : list bool) : nat :=
  match outcomes with
  | false :: rest => S (leading_failures rest)
  | _ => O
  end.

(** ** JSON objects of the collaborating services *)

Inductive json : Type :=
| JNull
| JBool (b : bool)
| JInt (z : Z)
| JFloat (f : float)
| JStr (s : string).

(** Python truth value of a JSON scalar. *)
Definition truthy (v : json) : bool :=
  match v with
  | JNull => false
  | JBool b => b
  | JInt z => negb (z =? 0)
  | JFloat f => negb (f =? 0)%float
  | JStr s => negb (String.eqb s "")
  end.

(** [d.get(k)] and [d.get(k, default)] *)
Definition dict_get (d : gmap string json) (k : string) : json :=
  default JNull (d !! k).
Definition dict_get_or (d : gmap string json) (k : string) (dflt : json) : json :=
  default dflt (d !! k).

(** Truth value of a dict, and of [None] or a dict. *)
Definition dict_truthy (d : gmap string json) : bool := negb (Nat.eqb (size d) 0).
Definition opt_dict_truthy (o : option (gmap string json)) : bool :=
  match o with
  | None => false
  | Some d => dict_truthy d
  end.

Definition json_is_str (v : json) (s : string) : bool :=
  match v with
  | JStr s' => String.eqb s' s
  | _ => false
  end.

(** A JSON number where the code computes with a float. *)
Definition json_number (v : json) : option float :=
  match v with
  | JInt z => Some (float_of_int z)
  | JFloat f => Some f
  | _ => None
  end.

(** What an [httpx] request gives: a transport error, or a response with its
    status code and, when the body parses, its JSON. *)
Inductive http_reply (B : Type) : Type :=
| Unreachable
| Reply (status_code : Z) (body : option B).
Arguments Unreachable {B}.
Arguments Reply {B} status_code body.

(** ** Handlers: state and exceptions *)

Definition handler (W A : Type) : Type := W → result A * W.

#[global] Instance handler_ret {W} : MRet (handler W) := fun _ a w => (Ok a, w).
#[global] Instance handler_bind {W} : MBind (handler W) := fun _ _ f m w =>
  match m w with
  | (Ok a, w') => f a w'
  | (Raise e, w') => (Raise e, w')
  end.

Definition raise {W A} (e : exn) : handler W A := fun w => (Raise e, w).

(** [try: body / except: handler_] with a bare [except]. *)
Definition try_except {W A} (body : handler W A) (on_exn : handler W A) : handler W A :=
  fun w =>
    match body w with
    | (Ok a, w') => (Ok a, w')
    | (Raise _, w') => on_exn w'
    end.

Definition lift_result {W A} (r : result A) : handler W A := fun w => (r, w).

Definition get_world {W} : handler W W := fun w => (Ok w, w).

(** [authorization.split(" ")] *)
Fixpoint split_space (s : string) : list string :=
  match s with
  | EmptyString => [EmptyString]
  | String c rest =>
    if Ascii.eqb c " "%char then EmptyString :: split_space rest
    else
      match split_space rest with
      | [] => [String c EmptyString]
      | w :: ws => String c w :: ws
      end
  end.

(** [verify_token], the same function in both services. [user_service] is
    the reply of [GET /verify-token] for a token. It raises 401 without a
    [Bearer] header and returns [None] when the user service does not answer
    200 with JSON. *)
Definition verify_token {W} (user_service : string → http_reply (gmap string json))
    (authorization : option string) : handler W (option (gmap string json)) :=
  match authorization with
  | None => raise (HTTPException 401 "Not authenticated")
  | Some a =>
    if negb (String.prefix "Bearer " a) then
      raise (HTTPException 401 "Not authenticated")
    else
      match split_space a !! 1%nat with
      | None => raise (ValueError "list index out of range")
      | Some token =>
        match user_service token with
        | Unreachable => mret None
        | Reply status_code body => if status_code =? 200 then mret body else mret None
        end
      end
  end.

(** A request is authenticated when [verify_token] returns a user that
    counts as true: the header is there and starts with [Bearer ], and the
    user service answers 200 with a JSON object that is not empty. *)
Definition token_valid (user_service : string → http_reply (gmap string json))
    (authorization : option string) : bool :=
  match authorization with
  | None => false
  | Some a =>
    String.prefix "Bearer " a &&
    match split_space a !! 1%nat with
    | None => false
    | Some token =>
      match user_service token with
      | Unreachable => false
      | Reply status_code body => (status_code =? 200) && opt_dict_truthy body
      end
    end
  end.
(** ** The math module

    [libm] holds the C functions behind [math.sin], [math.cos], [math.asin],
    [math.atan2] and [pow]; the wrappers below are what the interpreter adds
    around them. *)

Record libm : Type := Libm {
  c_sin : float → float;
  c_cos : float → float;
  c_asin : float → float;
  c_atan2 : float → float → float;
  c_pow : float → float → float
}.

(** [math.pi], and the two constants of [math.radians] and [math.degrees]. *)
Definition math_pi : float := 0x1.921fb54442d18p+1%float.
Definition degToRad : float := (math_pi / 180)%float.
Definition radToDeg : float := (180 / math_pi)%float.

Definition math_radians (x : float) : float := (x * degToRad)%float.
Definition math_degrees (x : float) : float := (x * radToDeg)%float.

(** A one-argument function of the math module: a NaN result from a number
    and an infinite result from a finite number are [ValueError]s. *)
Definition math_1 (f : float → float) (x : float) : result float :=
  let r := f x in
  if is_nan r && negb (is_nan x) then Raise (ValueError "math domain error")
  else if is_infinity r && is_finite x then Raise (ValueError "math domain error")
  else Ok r.

(** A two-argument function of the math module. *)
Definition math_2 (f : float → float → float) (x y : float) : result float :=
  let r := f x y in
  if is_nan r && negb (is_nan x) && negb (is_nan y) then
    Raise (ValueError "math domain error")
  else if is_infinity r && is_finite x && is_finite y then Raise OverflowError
  else Ok r.

Definition math_sin (L : libm) : float → result float := math_1 (c_sin L).
Definition math_cos (L : libm) : float → result float := math_1 (c_cos L).
Definition math_asin (L : libm) : float → result float := math_1 (c_asin L).
Definition math_sqrt : float → result float := math_1 sqrt.
Definition math_atan2 (L : libm) : float → float → result float :=
  math_2 (c_atan2 L).

(** [x ** 2] on a float: the interpreter settles NaN, the infinities, zero
    and a base of magnitude one itself, and calls [pow] on the magnitude of
    the base otherwise. *)
Definition float_pow2 (L : libm) (x : float) : result float :=
  if is_nan x then Ok x
  else if is_infinity x then Ok (abs x)
  else if (x =? 0)%float then Ok 0%float
  else if (abs x =? 1)%float then Ok 1%float
  else
    let r := c_pow L (abs x) 2 in
    if is_infinity r then Raise OverflowError else Ok r.

(** C [fmod]: the remainder of the truncated quotient, exact, with the sign
    of the dividend. *)
Definition SFfmod (x y : spec_float) : spec_float :=
  match x, y with
  | S754_nan, _ | _, S754_nan => S754_nan
  | S754_infinity _, _ => S754_nan
  | _, S754_zero _ => S754_nan
  | S754_zero _, _ => x
  | S754_finite _ _ _, S754_infinity _ => x
  | S754_finite sx mx ex, S754_finite _ my ey =>
    let ez := Z.min ex ey in
    let r := Z.rem (Z.pos mx * 2 ^ (ex - ez)) (Z.pos my * 2 ^ (ey - ez)) in
    binary_normalize prec emax (cond_Zopp sx r) ez sx
  end.

Definition fmod (x y : float) : float := SF2Prim (SFfmod (Prim2SF x) (Prim2SF y)).

(** [v % w] on floats: [fmod], then the sign of the divisor. *)
Definition float_mod (v w : float) : result float :=
  if (w =? 0)%float then Raise ZeroDivisionError
  else
    let m := fmod v w in
    if (m =? 0)%float then Ok (if get_sign w then PrimFloat.neg_zero else PrimFloat.zero)
    else if xorb (w <? 0)%float (m <? 0)%float then Ok (m + w)%float
    else Ok m.

(** ** delivery_service/main.py: geo kernel *)

Definition calculate_distance (L : libm) (lat1 lng1 lat2 lng2 : float) : result float :=
  let R := 6371%float in
  let lat1_rad := math_radians lat1 in
  let lat2_rad := math_radians lat2 in
  let delta_lat := math_radians (lat2 - lat1) in
  let delta_lng := math_radians (lng2 - lng1) in
  s1 ← math_sin L (delta_lat / 2);
  p1 ← float_pow2 L s1;
  c1 ← math_cos L lat1_rad;
  c2 ← math_cos L lat2_rad;
  s2 ← math_sin L (delta_lng / 2);
  p2 ← float_pow2 L s2;
  let a := (p1 + c1 * c2 * p2)%float in
  q ← math_sqrt a;
  h ← math_asin L q;
  let c := (2 * h)%float in
  mret (R * c)%float.

Definition calculate_bearing (L : libm) (lat1 lng1 lat2 lng2 : float) : result float :=
  let lat1_rad := math_radians lat1 in
  let lat2_rad := math_radians lat2 in
  let delta_lng := math_radians (lng2 - lng1) in
  sd ← math_sin L delta_lng;
  c2 ← math_cos L lat2_rad;
  let y := (sd * c2)%float in
  c1 ← math_cos L lat1_rad;
  s2 ← math_sin L lat2_rad;
  s1 ← math_sin L lat1_rad;
  c2' ← math_cos L lat2_rad;
  cd ← math_cos L delta_lng;
  let x := (c1 * s2 - s1 * c2' * cd)%float in
  bearing ← math_atan2 L y x;
  float_mod (math_degrees bearing + 360) 360.

(** ** delivery_service/main.py: storage and live channel *)

(** A row of [delivery_tracking], without its key and its timestamp: the key
    of a row is its position in the table, counted from one. *)
Record delivery_tracking : Type := DeliveryTracking {
  dt_order_id : Z;
  dt_drone_id : json;
  dt_latitude : float;
  dt_longitude : float;
  dt_altitude : float;
  dt_speed : float;
  dt_battery_level : option float;
  dt_status : option string
}.

(** A row of [delivery_routes]. *)
Record delivery_route : Type := DeliveryRoute {
  dr_order_id : Z;
  dr_drone_id : json;
  dr_waypoint_sequence : Z;
  dr_latitude : float;
  dr_longitude : float;
  dr_estimated_time : Z
}.

Inductive row : Type :=
| RouteRow (r : delivery_route)
| TrackingRow (t : delivery_tracking).

Record database : Type := Database {
  delivery_routes : list delivery_route;
  delivery_tracking_rows : list delivery_tracking
}.

Definition insert_row (d : database) (r : row) : database :=
  match r with
  | RouteRow x => Database (delivery_routes d ++ [x]) (delivery_tracking_rows d)
  | TrackingRow x => Database (delivery_routes d) (delivery_tracking_rows d ++ [x])
  end.

(** A WebSocket object, by identity. *)
Definition websocket : Type := nat.

(** The ["position_update"] message. *)
Record position_update : Type := PositionUpdate {
  pu_order_id : Z;
  pu_drone_id : json;
  pu_latitude : float;
  pu_longitude : float;
  pu_altitude : float;
  pu_speed : float;
  pu_battery_level : option float;
  pu_status : option string;
  pu_waypoint : option Z;
  pu_total_waypoints : option Z
}.

(** What a handler did, in order: a transaction committed with its rows, a
    call of [manager.broadcast], a frame that reached a connection, a sleep. *)
Inductive event : Type :=
| EvCommit (rows : list row)
| EvBroadcast (order_id : Z) (msg : position_update)
| EvSend (ws : websocket) (msg : position_update)
| EvSleep (seconds : Z).

(** The state a handler runs in. [db] is what is committed, which every
    session reads; [session] the objects added and not committed yet;
    [commit_outcomes] says for the coming commits whether the store accepts
    them (all of them once the list is used up); [send_fails] which
    connections raise on [send_json]. *)
Record world : Type := World {
  db : database;
  session : list row;
  commit_outcomes : list bool;
  active_connections : gmap Z (list websocket);
  send_fails : websocket → bool;
  events : list event
}.

Definition log (e : event) : handler world () := fun w =>
  (Ok (), World (db w) (session w) (commit_outcomes w) (active_connections w)
            (send_fails w) (events w ++ [e])).

(** [db.add(obj)] *)
Definition db_add (r : row) : handler world () := fun w =>
  (Ok (), World (db w) (session w ++ [r]) (commit_outcomes w)
            (active_connections w) (send_fails w) (events w)).

(** [db.commit()]: the rows of the session become visible together, or the
    transaction is rolled back and the commit raises. *)
Definition db_commit : handler world () := fun w =>
  match commit_outcomes w with
  | false :: rest =>
    (Raise SQLAlchemyError,
     World (db w) [] rest (active_connections w) (send_fails w) (events w))
  | outcomes =>
    (Ok (),
     World (foldl insert_row (db w) (session w)) [] (tail outcomes)
       (active_connections w) (send_fails w)
       (events w ++ [EvCommit (session w)]))
  end.

(** [await asyncio.sleep(seconds)] *)
Definition sleep (seconds : Z) : handler world () := log (EvSleep seconds).

(** *** ConnectionManager *)

Definition set_connections (f : gmap Z (list websocket) → gmap Z (list websocket))
    : handler world () := fun w =>
  (Ok (), World (db w) (session w) (commit_outcomes w) (f (active_connections w))
            (send_fails w) (events w)).

(** [await connection.send_json(message)] *)
Definition send_json (ws : websocket) (msg : position_update) : handler world () :=
  fun w => if send_fails w ws then (Raise WebSocketDisconnect, w)
           else log (EvSend ws msg) w.

Definition connect (ws : websocket) (order_id : Z) : handler world () := fun w =>
  let conns :=
    match active_connections w !! order_id with
    | None => []
    | Some l => l
    end in
  set_connections (<[order_id := conns ++ [ws]]>) w.

(** [l.remove(x)]: the list without the first occurrence of [x], [None]
    where Python raises [ValueError] because there is none. *)
Fixpoint list_remove (x : websocket) (l : list websocket) : option (list websocket) :=
  match l with
  | [] => None
  | y :: l' => if Nat.eqb y x then Some l' else cons y <$> list_remove x l'
  end.

Definition disconnect (ws : websocket) (order_id : Z) : handler world () := fun w =>
  match active_connections w !! order_id with
  | None => (Ok (), w)
  | Some conns =>
    match list_remove ws conns with
    | Some conns' => set_connections (<[order_id := conns']>) w
    | None => (Raise (ValueError "list.remove(x): x not in list"), w)
    end
  end.

Fixpoint broadcast_loop (conns : list websocket) (msg : position_update)
    : handler world () :=
  match conns with
  | [] => mret ()
  | connection :: rest =>
    try_except (send_json connection msg) (mret ());;
    broadcast_loop rest msg
  end.

Definition broadcast (order_id : Z) (msg : position_update) : handler world () :=
  log (EvBroadcast order_id msg);;
  w ← get_world;
  match active_connections w !! order_id with
  | None => mret ()
  | Some conns => broadcast_loop conns msg
  end.

(** *** Collaborators *)

(** The user service ([GET /verify-token] by token) and the order service
    ([GET /orders/{order_id}] by key and [Authorization] header). *)
Record collaborators : Type := Collaborators {
  user_service : string → http_reply (gmap string json);
  order_service : Z → option string → http_reply (gmap string json)
}.

(** The body of the [try] around the order lookup, up to [order_res.json()]. *)
Definition order_lookup (reply : http_reply (gmap string json))
    : result (gmap string json) :=
  match reply with
  | Unreachable => Raise ConnectError
  | Reply status_code body =>
    if negb (status_code =? 200) then Raise (HTTPException 404 "Order not found")
    else
      match body with
      | Some order => Ok order
      | None => Raise JSONDecodeError
      end
  end.

Definition number_or_raise {W} (v : json) : handler W float :=
  match json_number v with
  | Some f => mret f
  | None => raise TypeError
  end.

(** *** Routes *)

Record tracking_started : Type := TrackingStarted {
  ts_order_id : Z;
  ts_drone_id : json;
  ts_total_waypoints : Z
}.

(** The [DeliveryRoute] object made from a waypoint. *)
Definition route_row (order_id : Z) (drone_id : json) (wp : waypoint) : row :=
  RouteRow (DeliveryRoute order_id drone_id (wp_sequence wp) (wp_latitude wp)
              (wp_longitude wp) (wp_estimated_time wp)).

Fixpoint add_route (order_id : Z) (drone_id : json) (waypoints : list waypoint)
    : handler world () :=
  match waypoints with
  | [] => mret ()
  | wp :: rest =>
    db_add (route_row order_id drone_id wp);;
    add_route order_id drone_id rest
  end.

Definition start_tracking (env : collaborators) (order_id : Z)
    (authorization : option string) : handler world tracking_started :=
  user ← verify_token (user_service env) authorization;
  if negb (opt_dict_truthy user) then raise (HTTPException 401 "Invalid token")
  else
    order ← try_except
      (lift_result (order_lookup (order_service env order_id authorization)))
      (raise (HTTPException 503 "Order service unavailable"));
    if negb (truthy (dict_get order "drone_id")) then
      raise (HTTPException 400 "No drone assigned to this order")
    else
      start_lat ← number_or_raise (dict_get_or order "restaurant_lat" (JFloat 10.762622));
      start_lng ← number_or_raise (dict_get_or order "restaurant_lng" (JFloat 106.660172));
      end_lat ← number_or_raise (dict_get_or order "delivery_lat" (JFloat 10.775845));
      end_lng ← number_or_raise (dict_get_or order "delivery_lng" (JFloat 106.701758));
      waypoints ← lift_result (generate_waypoints start_lat start_lng end_lat end_lng 15);
      add_route order_id (dict_get order "drone_id") waypoints;;
      db_commit;;
      db_add (TrackingRow (DeliveryTracking order_id (dict_get order "drone_id")
                start_lat start_lng 0 0
                (json_number (dict_get_or order "battery_level" (JInt 100)))
                (Some "taking_off")));;
      db_commit;;
      mret (TrackingStarted order_id (dict_get order "drone_id")
              (Z.of_nat (length waypoints))).

Definition update_position (env : collaborators) (order_id : Z)
    (latitude longitude altitude speed : float) (battery_level : option float)
    (status : option string) : handler world Z :=
  drone_id ← try_except
    (order ← lift_result (order_lookup (order_service env order_id None));
     mret (dict_get order "drone_id"))
    (raise (HTTPException 503 "Order service unavailable"));
  db_add (TrackingRow (DeliveryTracking order_id drone_id latitude longitude
            altitude speed battery_level status));;
  db_commit;;
  broadcast order_id (PositionUpdate order_id drone_id latitude longitude altitude
                        speed battery_level status None None);;
  w ← get_world;
  mret (Z.of_nat (length (delivery_tracking_rows (db w)))).

(** *** Movement simulator *)

Fixpoint simulate_loop (order_id : Z) (drone_id : json) (total : Z) (i : Z)
    (battery : float) (waypoints : list delivery_route) : handler world () :=
  match waypoints with
  | [] => mret ()
  | waypoint :: rest =>
    let tracking :=
      DeliveryTracking order_id drone_id (dr_latitude waypoint)
        (dr_longitude waypoint) (float_of_int (50 + i mod 10))
        (float_of_int (25 + i mod 15)) (Some battery)
        (Some (if i <? total - 1 then "in_flight" else "landing")) in
    db_add (TrackingRow tracking);;
    db_commit;;
    broadcast order_id
      (PositionUpdate order_id drone_id (dr_latitude waypoint)
         (dr_longitude waypoint) (dt_altitude tracking) (dt_speed tracking)
         (Some battery) (dt_status tracking) (Some (i + 1)) (Some total));;
    sleep 2;;
    simulate_loop order_id drone_id total (i + 1) (battery - 0.5)%float rest
  end.

Definition simulate_drone_movement (order_id : Z) (drone_id : json)
    (waypoints : list delivery_route) : handler world () :=
  simulate_loop order_id drone_id (Z.of_nat (length waypoints)) 0 100%float waypoints.

(** The requests of the delivery service that write, as the application
    routes them: the [Authorization] header reaches a handler only where its
    signature declares it. *)
Inductive delivery_request : Type :=
| StartTracking (order_id : Z)
| UpdatePosition (order_id : Z) (latitude longitude altitude speed : float)
    (battery_level : option float) (status : option string).

Definition serve_delivery (env : collaborators) (authorization : option string)
    (req : delivery_request) : handler world () :=
  match req with
  | StartTracking order_id =>
    start_tracking env order_id authorization;; mret ()
  | UpdatePosition order_id latitude longitude altitude speed battery_level status =>
    update_position env order_id latitude longitude altitude speed battery_level
      status;; mret ()
  end.

(** The status code the client sees. *)
Definition http_status {A} (r : result A) : Z :=
  match r with
  | Ok _ => 200
  | Raise (HTTPException status_code _) => status_code
  | Raise _ => 500
  end.

(** *** Notions of the statements *)

(** [answers S m]: whatever the state, the status code of [m] is in [S]. *)
Definition answers {W A} (S : list Z) (m : handler W A) : Prop :=
  ∀ w, http_status (m w).1 ∈ S.

(** An exception that reports a rejected argument. *)
Definition is_validation_error (e : exn) : bool :=
  match e with
  | ValueError _ => true
  | HTTPException 422 _ => true
  | _ => false
  end.

(** An empty store with no subscriber, where every commit and every send
    succeeds. *)
Definition empty_database : database := Database [] [].
Definition quiet_world : world := World empty_database [] [] ∅ (λ _, false) [].

(** The sample that the simulator stores at index [i] of [total] waypoints
    with the battery at [battery], and the message it publishes for it. *)
Definition simulated_sample (order_id : Z) (drone_id : json) (total i : Z)
    (battery : float) (waypoint : delivery_route) : delivery_tracking :=
  DeliveryTracking order_id drone_id (dr_latitude waypoint) (dr_longitude waypoint)
    (float_of_int (50 + i mod 10)) (float_of_int (25 + i mod 15)) (Some battery)
    (Some (if i <? total - 1 then "in_flight" else "landing")).

Definition simulated_message (total i : Z) (s : delivery_tracking) : position_update :=
  PositionUpdate (dt_order_id s) (dt_drone_id s) (dt_latitude s) (dt_longitude s)
    (dt_altitude s) (dt_speed s) (dt_battery_level s) (dt_status s) (Some (i + 1))
    (Some total).

(** The battery level after [i] steps of the simulator. *)
Definition battery_after (i : nat) : float := Nat.iter i (λ b, (b - 0.5)%float) 100%float.

(** How many of the coming [n] commits the store accepts before the first
    one it refuses. *)
Fixpoint accepted (outcomes : list bool) (n : nat) {struct n} : nat :=
  match n with
  | O => O
  | S n' =>
    match outcomes with
    | [] => n
    | false :: _ => O
    | true :: rest => S (accepted rest n')
    end
  end.

(** The messages of the calls of [broadcast] and the row lists of the
    commits in a log. *)
Definition published (evs : list event) : list position_update :=
  omap (λ e, match e with EvBroadcast _ msg => Some msg | _ => None end) evs.
Definition committed (evs : list event) : list (list row) :=
  omap (λ e, match e with EvCommit rows => Some rows | _ => None end) evs.

(** Whether a string holds a space. *)
Fixpoint has_space (s : string) : bool :=
  match s with
  | EmptyString => false
  | String c rest => Ascii.eqb c " " || has_space rest
  end.

(** What [verify_token] returns for a token that reached the user service. *)
Definition user_for (user_service : string → http_reply (gmap string json))
    (token : string) : option (gmap string json) :=
  match user_service token with
  | Unreachable => None
  | Reply status_code body => if status_code =? 200 then body else None
  end.

(** Whether the store accepts the [k]-th coming commit, counted from zero. *)
Definition commit_succeeds (w : world) (k : nat) : bool :=
  default true (commit_outcomes w !! k).

(** The [DeliveryRoute] object of a route row, and the route rows of a list
    of waypoints. *)
Definition route_of (order_id : Z) (drone_id : json) (wp : waypoint) : delivery_route :=
  DeliveryRoute order_id drone_id (wp_sequence wp) (wp_latitude wp)
    (wp_longitude wp) (wp_estimated_time wp).

(** The user service accepts every token and the order service knows every
    order, with drone 3 assigned and no coordinates of its own. *)
Definition friendly : collaborators :=
  Collaborators (λ _, Reply 200 (Some {[ "role" := JStr "admin" ]}))
    (λ _ _, Reply 200 (Some {[ "drone_id" := JInt 3 ]})).

(** The connections registered for an order when [broadcast] is called. *)
Definition subscribers (w : world) (order_id : Z) : list websocket :=
  default [] (active_connections w !! order_id).

(** ** drone_service/main.py *)

Module Drone.

Inductive drone_detailed_status : Type :=
| IDLE | CHARGING | ASSIGNED | GOING_TO_RESTAURANT | PICKING_UP | IN_DELIVERY
| RETURNING | MAINTENANCE | ERROR.

Definition status_value (s : drone_detailed_status) : string :=
  match s with
  | IDLE => "idle"
  | CHARGING => "charging"
  | ASSIGNED => "assigned"
  | GOING_TO_RESTAURANT => "going_to_restaurant"
  | PICKING_UP => "picking_up"
  | IN_DELIVERY => "in_delivery"
  | RETURNING => "returning"
  | MAINTENANCE => "maintenance"
  | ERROR => "error"
  end.

Inductive maintenance_type : Type :=
| ROUTINE | REPAIR | BATTERY_REPLACEMENT | MOTOR_CHECK | SOFTWARE_UPDATE.

Definition maintenance_value (t : maintenance_type) : string :=
  match t with
  | ROUTINE => "routine"
  | REPAIR => "repair"
  | BATTERY_REPLACEMENT => "battery_replacement"
  | MOTOR_CHECK => "motor_check"
  | SOFTWARE_UPDATE => "software_update"
  end.

(** Rows, without their keys and the timestamps that the store fills in. A
    key is the position of the row in its table, counted from one. *)
Record drone_status_history : Type := DroneStatusHistory {
  sh_drone_id : Z;
  sh_status : string;
  sh_previous_status : option string;
  sh_latitude : option float;
  sh_longitude : option float;
  sh_battery_level : json;
  sh_reason : option string;
  sh_changed_by : json
}.

Record drone_maintenance : Type := DroneMaintenance {
  dm_drone_id : Z;
  dm_maintenance_type : string;
  dm_scheduled_date : Z;
  dm_completed_date : option Z;
  dm_technician_id : json;
  dm_notes : option string
}.

Record drone_performance : Type := DronePerformance {
  dp_drone_id : Z;
  dp_total_deliveries : option Z;
  dp_total_distance_km : option float;
  dp_total_flight_time_minutes : option Z;
  dp_average_speed : option float;
  dp_success_rate : option float;
  dp_last_updated : option Z
}.

Record drone_battery_log : Type := DroneBatteryLog {
  bl_drone_id : Z;
  bl_battery_level : float;
  bl_voltage : option float;
  bl_temperature : option float;
  bl_health_percentage : option float;
  bl_charge_cycles : option Z
}.

(** The f-strings of the alert messages, by their holes. *)
Inductive alert_message : Type :=
| StatusErrorMessage (reason : option string)
| LowBatteryMessage (battery_level : float)
| BatteryHealthMessage (health_percentage : float).

Record drone_alert : Type := DroneAlert {
  al_drone_id : Z;
  al_alert_type : string;
  al_severity : string;
  al_message : alert_message;
  al_is_resolved : Z;
  al_resolved_at : option Z
}.

Record database : Type := Database {
  drone_status_history_rows : list drone_status_history;
  drone_maintenance_rows : list drone_maintenance;
  drone_performance_rows : list drone_performance;
  drone_battery_logs : list drone_battery_log;
  drone_alerts : list drone_alert
}.

(** What a session holds until its commit: objects added, and objects loaded
    from the store and changed. *)
Inductive db_op : Type :=
| AddStatus (r : drone_status_history)
| AddMaintenance (r : drone_maintenance)
| AddPerformance (r : drone_performance)
| AddBatteryLog (r : drone_battery_log)
| AddAlert (r : drone_alert)
| SetMaintenance (i : nat) (r : drone_maintenance)
| SetPerformance (i : nat) (r : drone_performance)
| SetAlert (i : nat) (r : drone_alert).

(** The column defaults of [drone_performance], applied on insert. *)
Definition performance_defaults (p : drone_performance) : drone_performance :=
  DronePerformance (dp_drone_id p)
    (Some (default 0 (dp_total_deliveries p)))
    (Some (default 0%float (dp_total_distance_km p)))
    (Some (default 0 (dp_total_flight_time_minutes p)))
    (Some (default 0%float (dp_average_speed p)))
    (Some (default 100%float (dp_success_rate p)))
    (dp_last_updated p).

Definition apply_op (d : database) (op : db_op) : database :=
  match op with
  | AddStatus r =>
    Database (drone_status_history_rows d ++ [r]) (drone_maintenance_rows d)
      (drone_performance_rows d) (drone_battery_logs d) (drone_alerts d)
  | AddMaintenance r =>
    Database (drone_status_history_rows d) (drone_maintenance_rows d ++ [r])
      (drone_performance_rows d) (drone_battery_logs d) (drone_alerts d)
  | AddPerformance r =>
    Database (drone_status_history_rows d) (drone_maintenance_rows d)
      (drone_performance_rows d ++ [performance_defaults r])
      (drone_battery_logs d) (drone_alerts d)
  | AddBatteryLog r =>
    Database (drone_status_history_rows d) (drone_maintenance_rows d)
      (drone_performance_rows d) (drone_battery_logs d ++ [r]) (drone_alerts d)
  | AddAlert r =>
    Database (drone_status_history_rows d) (drone_maintenance_rows d)
      (drone_performance_rows d) (drone_battery_logs d) (drone_alerts d ++ [r])
  | SetMaintenance i r =>
    Database (drone_status_history_rows d) (<[i := r]> (drone_maintenance_rows d))
      (drone_performance_rows d) (drone_battery_logs d) (drone_alerts d)
  | SetPerformance i r =>
    Database (drone_status_history_rows d) (drone_maintenance_rows d)
      (<[i := r]> (drone_performance_rows d)) (drone_battery_logs d)
      (drone_alerts d)
  | SetAlert i r =>
    Database (drone_status_history_rows d) (drone_maintenance_rows d)
      (drone_performance_rows d) (drone_battery_logs d)
      (<[i := r]> (drone_alerts d))
  end.

(** A call that changes another service: [PUT /drones/{drone_id}] on the
    order service with the new status. *)
Inductive event : Type :=
| EvCommit (ops : list db_op)
| EvPutDrone (drone_id : Z) (status : string).

Record world : Type := World {
  db : database;
  session : list db_op;
  commit_outcomes : list bool;
  now : Z;
  events : list event
}.

Definition log (e : event) : handler world () := fun w =>
  (Ok (), World (db w) (session w) (commit_outcomes w) (now w) (events w ++ [e])).

Definition db_add (op : db_op) : handler world () := fun w =>
  (Ok (), World (db w) (session w ++ [op]) (commit_outcomes w) (now w) (events w)).

Definition set_session (ops : list db_op) : handler world () := fun w =>
  (Ok (), World (db w) ops (commit_outcomes w) (now w) (events w)).

Definition db_commit : handler world () := fun w =>
  match commit_outcomes w with
  | false :: rest => (Raise SQLAlchemyError, World (db w) [] rest (now w) (events w))
  | outcomes =>
    (Ok (), World (foldl apply_op (db w) (session w)) [] (tail outcomes) (now w)
              (events w ++ [EvCommit (session w)]))
  end.

(** [datetime.utcnow()] in seconds. *)
Definition utcnow : handler world Z := fun w => (Ok (now w), w).

Record collaborators : Type := Collaborators {
  user_service : string → http_reply (gmap string json);
  (** [GET /drones] on the order service *)
  order_service_drones : http_reply (list (gmap string json))
}.

Definition json_eq_int (v : json) (z : Z) : bool :=
  match v with
  | JInt z' => z' =? z
  | JFloat f => (f =? float_of_int z)%float
  | JBool b => (if b then 1 else 0) =? z
  | _ => false
  end.

(** [next((d for d in drones if d["id"] == drone_id), None)] *)
Fixpoint find_drone (drones : list (gmap string json)) (drone_id : Z)
    : result (option (gmap string json)) :=
  match drones with
  | [] => Ok None
  | d :: rest =>
    match d !! "id" with
    | None => Raise KeyError
    | Some v => if json_eq_int v drone_id then Ok (Some d) else find_drone rest drone_id
    end
  end.

Definition get_drone_from_order_service (env : collaborators) (drone_id : Z)
    : option (gmap string json) :=
  match order_service_drones env with
  | Reply status_code (Some drones) =>
    if status_code =? 200 then
      match find_drone drones drone_id with
      | Ok d => d
      | Raise _ => None
      end
    else None
  | _ => None
  end.

(** [user.get("role") in roles] *)
Definition role_in (user : gmap string json) (roles : list string) : bool :=
  existsb (json_is_str (dict_get user "role")) roles.

(** The row with key [id]. *)
Definition by_id {A} (rows : list A) (id : Z) : option A :=
  if id <=? 0 then None else rows !! Z.to_nat (id - 1).

Record status_change : Type := StatusChange {
  sc_status : drone_detailed_status;
  sc_reason : option string;
  sc_latitude : option float;
  sc_longitude : option float
}.

Definition update_drone_status (env : collaborators) (drone_id : Z)
    (change : status_change) (authorization : option string)
    : handler world (string * string) :=
  user ← verify_token (user_service env) authorization;
  if negb (opt_dict_truthy user)
     || negb (role_in (default ∅ user) ["admin"; "restaurant"]) then
    raise (HTTPException 403 "Admin access required")
  else
    w ← get_world;
    let latest :=
      last (filter (λ r, sh_drone_id r = drone_id) (drone_status_history_rows (db w))) in
    let previous_status :=
      match latest with
      | Some r => sh_status r
      | None => "unknown"
      end in
    let drone := get_drone_from_order_service env drone_id in
    let current_battery :=
      match drone with
      | Some d => if dict_truthy d then dict_get_or d "battery_level" (JInt 0) else JInt 0
      | None => JInt 0
      end in
    db_add (AddStatus (DroneStatusHistory drone_id (status_value (sc_status change))
              (Some previous_status) (sc_latitude change) (sc_longitude change)
              current_battery (sc_reason change)
              (dict_get (default ∅ user) "user_id")));;
    log (EvPutDrone drone_id (status_value (sc_status change)));;
    (match sc_status change with
     | ERROR =>
       db_add (AddAlert (DroneAlert drone_id "status_error" "high"
                 (StatusErrorMessage (sc_reason change)) 0 None))
     | _ => mret ()
     end);;
    db_commit;;
    mret (previous_status, status_value (sc_status change)).

Record maintenance_create : Type := MaintenanceCreate {
  mc_drone_id : Z;
  mc_maintenance_type : maintenance_type;
  mc_scheduled_date : Z;
  mc_notes : option string
}.

Definition schedule_maintenance (env : collaborators) (maintenance : maintenance_create)
    (authorization : option string) : handler world drone_maintenance :=
  user ← verify_token (user_service env) authorization;
  if negb (opt_dict_truthy user) || negb (role_in (default ∅ user) ["admin"]) then
    raise (HTTPException 403 "Admin access required")
  else
    let db_maintenance :=
      DroneMaintenance (mc_drone_id maintenance)
        (maintenance_value (mc_maintenance_type maintenance))
        (mc_scheduled_date maintenance) None JNull (mc_notes maintenance) in
    db_add (AddMaintenance db_maintenance);;
    db_commit;;
    t ← utcnow;
    (if mc_scheduled_date maintenance <=? t + 24 * 3600 then
       db_add (AddStatus (DroneStatusHistory (mc_drone_id maintenance)
                 (status_value MAINTENANCE) None None None JNull
                 (Some ("Scheduled maintenance: "
                        +:+ maintenance_value (mc_maintenance_type maintenance)))
                 (dict_get (default ∅ user) "user_id")));;
       db_commit
     else mret ());;
    mret db_maintenance.

Definition complete_maintenance (env : collaborators) (maintenance_id : Z)
    (notes : option string) (authorization : option string) : handler world () :=
  user ← verify_token (user_service env) authorization;
  if negb (opt_dict_truthy user) || negb (role_in (default ∅ user) ["admin"]) then
    raise (HTTPException 403 "Admin access required")
  else
    w ← get_world;
    match by_id (drone_maintenance_rows (db w)) maintenance_id with
    | None => raise (HTTPException 404 "Maintenance record not found")
    | Some maintenance =>
      t ← utcnow;
      let notes' :=
        match notes with
        | Some n => if String.eqb n "" then dm_notes maintenance else Some n
        | None => dm_notes maintenance
        end in
      db_add (SetMaintenance (Z.to_nat (maintenance_id - 1))
                (DroneMaintenance (dm_drone_id maintenance)
                   (dm_maintenance_type maintenance) (dm_scheduled_date maintenance)
                   (Some t) (dict_get (default ∅ user) "user_id") notes'));;
      db_add (AddStatus (DroneStatusHistory (dm_drone_id maintenance)
                (status_value IDLE) None None None JNull
                (Some "Maintenance completed")
                (dict_get (default ∅ user) "user_id")));;
      db_commit
    end.

Definition resolve_alert (env : collaborators) (alert_id : Z)
    (authorization : option string) : handler world () :=
  user ← verify_token (user_service env) authorization;
  if negb (opt_dict_truthy user) || negb (role_in (default ∅ user) ["admin"]) then
    raise (HTTPException 403 "Admin access required")
  else
    w ← get_world;
    match by_id (drone_alerts (db w)) alert_id with
    | None => raise (HTTPException 404 "Alert not found")
    | Some alert =>
      t ← utcnow;
      db_add (SetAlert (Z.to_nat (alert_id - 1))
                (DroneAlert (al_drone_id alert) (al_alert_type alert)
                   (al_severity alert) (al_message alert) 1 (Some t)));;
      db_commit
    end.

(** An attribute that is [None] where a number is needed: [TypeError]. *)
Definition number {A} (o : option A) : handler world A :=
  match o with
  | Some a => mret a
  | None => raise TypeError
  end.

Definition update_performance (drone_id deliveries_completed : Z) (distance_km : float)
    (flight_time_minutes : Z) (success : bool) : handler world drone_performance :=
  w ← get_world;
  let found := list_find (λ p, dp_drone_id p = drone_id) (drone_performance_rows (db w)) in
  let performance :=
    match found with
    | Some (_, p) => p
    | None => DronePerformance drone_id None None None None None None
    end in
  (match found with
   | Some _ => mret ()
   | None => db_add (AddPerformance performance)
   end);;
  d0 ← number (dp_total_deliveries performance);
  let total_deliveries := d0 + deliveries_completed in
  k0 ← number (dp_total_distance_km performance);
  let total_distance_km := (k0 + distance_km)%float in
  m0 ← number (dp_total_flight_time_minutes performance);
  let total_flight_time_minutes := m0 + flight_time_minutes in
  let average_speed :=
    if 0 <? total_flight_time_minutes then
      Some (total_distance_km / float_of_int total_flight_time_minutes * 60)%float
    else dp_average_speed performance in
  success_rate ←
    (if 0 <? deliveries_completed then
       rate ← number (dp_success_rate performance);
       s0 ← lift_result (int_of_float (float_of_int total_deliveries * rate / 100)%float);
       let successes := if success then s0 + 1 else s0 in
       q ← lift_result (true_div successes total_deliveries);
       mret (Some (q * 100)%float)
     else mret (dp_success_rate performance));
  t ← utcnow;
  let performance' :=
    DronePerformance drone_id (Some total_deliveries) (Some total_distance_km)
      (Some total_flight_time_minutes) average_speed success_rate (Some t) in
  (match found with
   | Some (i, _) => db_add (SetPerformance i performance')
   | None => set_session [AddPerformance performance']
   end);;
  db_commit;;
  mret performance'.

Definition log_battery_status (drone_id : Z) (battery_level : float)
    (voltage temperature health_percentage : option float) (charge_cycles : option Z)
    : handler world () :=
  db_add (AddBatteryLog (DroneBatteryLog drone_id battery_level voltage temperature
            health_percentage charge_cycles));;
  (if (battery_level <? 20)%float then
     db_add (AddAlert (DroneAlert drone_id "low_battery"
               (if (battery_level <? 10)%float then "high" else "medium")
               (LowBatteryMessage battery_level) 0 None))
   else mret ());;
  (match health_percentage with
   | Some h =>
     if negb (h =? 0)%float && (h <? 60)%float then
       db_add (AddAlert (DroneAlert drone_id "battery_health" "high"
                 (BatteryHealthMessage h) 0 None))
     else mret ()
   | None => mret ()
   end);;
  db_commit.

(** The requests of the drone service that write. *)
Inductive request : Type :=
| UpdateDroneStatus (drone_id : Z) (change : status_change)
| ScheduleMaintenance (maintenance : maintenance_create)
| CompleteMaintenance (maintenance_id : Z) (notes : option string)
| ResolveAlert (alert_id : Z)
| UpdatePerformance (drone_id deliveries_completed : Z) (distance_km : float)
    (flight_time_minutes : Z) (success : bool)
| LogBatteryStatus (drone_id : Z) (battery_level : float)
    (voltage temperature health_percentage : option float) (charge_cycles : option Z).

Definition serve (env : collaborators) (authorization : option string)
    (req : request) : handler world () :=
  match req with
  | UpdateDroneStatus drone_id change =>
    update_drone_status env drone_id change authorization;; mret ()
  | ScheduleMaintenance maintenance =>
    schedule_maintenance env maintenance authorization;; mret ()
  | CompleteMaintenance maintenance_id notes =>
    complete_maintenance env maintenance_id notes authorization
  | ResolveAlert alert_id => resolve_alert env alert_id authorization
  | UpdatePerformance drone_id deliveries_completed distance_km flight_time_minutes
      success =>
    update_performance drone_id deliveries_completed distance_km flight_time_minutes
      success;; mret ()
  | LogBatteryStatus drone_id battery_level voltage temperature health_percentage
      charge_cycles =>
    log_battery_status drone_id battery_level voltage temperature health_percentage
      charge_cycles
  end.

(** [get_drone_performance]: the performance row of a drone, made with the
    column defaults when there is none. *)
Definition get_drone_performance (drone_id : Z) : handler world drone_performance :=
  w ← get_world;
  match list_find (λ p, dp_drone_id p = drone_id) (drone_performance_rows (db w)) with
  | Some (_, performance) => mret performance
  | None =>
    (** [last_updated] has the column default [datetime.utcnow], taken when
        the row is inserted *)
    t ← utcnow;
    let performance := DronePerformance drone_id None None None None None (Some t) in
    db_add (AddPerformance performance);;
    db_commit;;
    (** [db.refresh(performance)] loads the row as inserted *)
    mret (performance_defaults performance)
  end.

(** [check_battery_health]: the logs are the [health_percentage] columns of
    the rows, newest first. The sum of an empty generator is the int 0; the
    readings are added from left to right. *)
Record battery_health : Type := BatteryHealth {
  bh_status : string;
  bh_health : option float;
  bh_recommendation : string
}.

Definition is_true_float (o : option float) : option float :=
  match o with
  | Some h => if (h =? 0)%float then None else Some h
  | None => None
  end.

Definition check_battery_health (battery_logs : list (option float))
    : result battery_health :=
  match battery_logs with
  | [] => Ok (BatteryHealth "unknown" None "No data")
  | _ =>
    let recent_logs := take 10 battery_logs in
    let healths := omap is_true_float recent_logs in
    avg_health ←
      match healths with
      | [] => true_div 0 (Z.of_nat (length recent_logs))
      | h :: rest =>
        Ok (foldl PrimFloat.add h rest / float_of_int (Z.of_nat (length recent_logs)))%float
      end;
    if (90 <=? avg_health)%float then
      Ok (BatteryHealth "excellent" (Some avg_health) "No action needed")
    else if (75 <=? avg_health)%float then
      Ok (BatteryHealth "good" (Some avg_health) "Monitor regularly")
    else if (60 <=? avg_health)%float then
      Ok (BatteryHealth "fair" (Some avg_health) "Schedule replacement soon")
    else Ok (BatteryHealth "poor" (Some avg_health) "Replace immediately")
  end.

(** Whether the store accepts the [k]-th coming commit, counted from zero. *)
Definition commit_succeeds (w : world) (k : nat) : bool :=
  default true (commit_outcomes w !! k).

(** The roles that a request is open to. *)
Definition allowed_roles (req : request) : list string :=
  match req with
  | UpdateDroneStatus _ _ => ["admin"; "restaurant"]
  | _ => ["admin"]
  end.

(** The battery level that [update_drone_status] writes into the history:
    the one the order service reports for the drone, 0 when it reports none. *)
Definition reported_battery (env : collaborators) (drone_id : Z) : json :=
  match get_drone_from_order_service env drone_id with
  | Some d => if dict_truthy d then dict_get_or d "battery_level" (JInt 0) else JInt 0
  | None => JInt 0
  end.

(** The latest status on record for a drone, "unknown" when it has none. *)
Definition current_status (d : database) (drone_id : Z) : string :=
  match last (filter (λ r, sh_drone_id r = drone_id) (drone_status_history_rows d)) with
  | Some r => sh_status r
  | None => "unknown"
  end.

(** The requests whose handler declares the [Authorization] header. *)
Definition declares_authorization (req : request) : bool :=
  match req with
  | UpdateDroneStatus _ _ | ScheduleMaintenance _ | CompleteMaintenance _ _
  | ResolveAlert _ => true
  | UpdatePerformance _ _ _ _ _ | LogBatteryStatus _ _ _ _ _ _ => false
  end.

Definition empty_database : database := Database [] [] [] [] [].

(** No user service and no order service within reach. *)
Definition offline : collaborators := Collaborators (λ _, Unreachable) Unreachable.

End Drone.

(** * Properties *)

(** ** Route planner: [num_points = 0] *)


(** C6, as the code has it: [generate_waypoints] checks nothing, and with
    [num_points = 0] the first iteration divides [0 / 0], so the call raises
    [ZeroDivisionError] whatever the coordinates. *)
Theorem generate_waypoints_zero_points (start_lat start_lng end_lat end_lng : float) :
  generate_waypoints start_lat start_lng end_lat end_lng 0 = Raise ZeroDivisionError.
Proof. reflexivity. Qed.

(** C6, refuted as stated: the exception for [num_points = 0] is not a
    validation error. *)
Lemma generate_waypoints_zero_not_validation :
  ¬ (∃ e, generate_waypoints 10.762622 106.660172 10.775845 106.701758 0 = Raise e
          ∧ is_validation_error e = true).
Proof.
  intros (e & He & Hv). change (@Raise (list waypoint) ZeroDivisionError = Raise e) in He.
  injection He as <-. discriminate Hv.
Qed.

(** ** ConnectionManager.disconnect *)

Lemma list_remove_Some (ws : websocket) (l l' : list websocket) :
  list_remove ws l = Some l' → ws ∈ l.
Proof.
  revert l'. induction l as [|y l IH]; intros l'; simpl; [discriminate|].
  destruct (Nat.eqb_spec y ws) as [->|Hne]; [intros _; left|].
  destruct (list_remove ws l) eqn:E; [|discriminate].
  intros _. right. eauto.
Qed.

Lemma list_remove_None (ws : websocket) (l : list websocket) :
  list_remove ws l = None ↔ ws ∉ l.
Proof.
  induction l as [|y l IH]; simpl.
  - split; [intros _; apply not_elem_of_nil | done].
  - destruct (Nat.eqb_spec y ws) as [->|Hne].
    + split; [discriminate | intros H; exfalso; apply H; left].
    + rewrite not_elem_of_cons. destruct (list_remove ws l).
      * split; [discriminate|]. intros [_ H]. by apply IH in H.
      * split; [|done]. intros _. split; [congruence | by apply IH].
Qed.

(** An order that never had a subscriber: [disconnect] does nothing. *)
Lemma disconnect_unknown_order (ws : websocket) (order_id : Z) (w : world) :
  active_connections w !! order_id = None → disconnect ws order_id w = (Ok (), w).
Proof. intros H. unfold disconnect. by rewrite H. Qed.

(** A known order whose list does not hold the connection: [list.remove]
    raises, and the registry stays as it was. *)
Lemma disconnect_absent_raises (ws : websocket) (order_id : Z) (w : world)
    (conns : list websocket) :
  active_connections w !! order_id = Some conns → ws ∉ conns →
  disconnect ws order_id w = (Raise (ValueError "list.remove(x): x not in list"), w).
Proof.
  intros H Hn. unfold disconnect. rewrite H.
  apply list_remove_None in Hn. by rewrite Hn.
Qed.


(** C5, at the failing input: one subscriber on order 42, disconnected
    twice. The first call empties the list and keeps the key; the second
    raises [ValueError]. *)
Theorem disconnect_twice_raises :
  let w1 := (connect 7%nat 42 quiet_world).2 in
  let w2 := (disconnect 7%nat 42 w1).2 in
  active_connections w2 !! 42 = Some []
  ∧ (disconnect 7%nat 42 w2).1 = Raise (ValueError "list.remove(x): x not in list").
Proof. split; reflexivity. Qed.

(** ** ConnectionManager.broadcast *)

Lemma broadcast_loop_spec (conns : list websocket) (msg : position_update) (w : world) :
  broadcast_loop conns msg w =
  (Ok (), World (db w) (session w) (commit_outcomes w) (active_connections w)
            (send_fails w)
            (events w ++
               ((λ ws, EvSend ws msg) <$> filter (λ ws, send_fails w ws = false) conns))).
Proof.
  revert w. induction conns as [|c conns IH]; intros w; simpl.
  - rewrite app_nil_r. by destruct w.
  - unfold mbind, handler_bind, try_except, send_json.
    destruct (send_fails w c) eqn:Hc.
    + simpl. rewrite IH. rewrite filter_cons_False by congruence. done.
    + simpl. rewrite IH. simpl. rewrite filter_cons_True by done.
      simpl. by rewrite <- app_assoc.
Qed.


(** C4: [broadcast] never raises. It leaves the store, the session and the
    registry as they were and sends the message, in registration order, to
    every connection of the order whose [send_json] does not fail: a failing
    connection is skipped and the ones after it are still served. With no
    subscriber nothing is sent. *)
Theorem broadcast_best_effort (order_id : Z) (msg : position_update) (w : world) :
  let r := broadcast order_id msg w in
  r.1 = Ok ()
  ∧ db r.2 = db w ∧ session r.2 = session w
  ∧ active_connections r.2 = active_connections w
  ∧ events r.2 =
      events w ++ EvBroadcast order_id msg ::
        ((λ ws, EvSend ws msg) <$>
           filter (λ ws, send_fails w ws = false) (subscribers w order_id))
  ∧ (∀ ws, ws ∈ subscribers w order_id → send_fails w ws = false →
           EvSend ws msg ∈ events r.2)
  ∧ (subscribers w order_id = [] → events r.2 = events w ++ [EvBroadcast order_id msg]).
Proof.
  assert (Hrun : broadcast order_id msg w =
    (Ok (), World (db w) (session w) (commit_outcomes w) (active_connections w)
              (send_fails w)
              (events w ++ EvBroadcast order_id msg ::
                 ((λ ws, EvSend ws msg) <$>
                    filter (λ ws, send_fails w ws = false) (subscribers w order_id))))).
  { unfold broadcast, subscribers, mbind, handler_bind, log, get_world. simpl.
    destruct (active_connections w !! order_id) as [conns|] eqn:E; simpl.
    - rewrite broadcast_loop_spec. simpl. by rewrite <- app_assoc.
    - done. }
  simpl. rewrite Hrun. simpl. repeat split.
  - intros ws Hin Hok. apply elem_of_app. right. right.
    apply list_elem_of_fmap. exists ws. split; [done|].
    apply list_elem_of_filter. done.
  - intros ->. done.
Qed.

(** C4 at a concrete registry: the second of three subscribers fails, the
    first and the third get the frame. *)
Lemma broadcast_best_effort_witness :
  let msg := PositionUpdate 42 (JInt 3) 10.5 106.5 50 30 None None None None in
  let w := World empty_database [] [] {[ 42 := [1; 2; 3]%nat ]}
             (λ ws, Nat.eqb ws 2) [] in
  events (broadcast 42 msg w).2 = [EvBroadcast 42 msg; EvSend 1%nat msg; EvSend 3%nat msg].
Proof. reflexivity. Qed.

(** ** Running a handler *)

Lemma bind_ok {W A B} (m : handler W A) (f : A → handler W B) (w w' : W) (a : A) :
  m w = (Ok a, w') → (m ≫= f) w = f a w'.
Proof. intros H. unfold mbind, handler_bind. by rewrite H. Qed.

Lemma bind_raise {W A B} (m : handler W A) (f : A → handler W B) (w w' : W) (e : exn) :
  m w = (Raise e, w') → (m ≫= f) w = (Raise e, w').
Proof. intros H. unfold mbind, handler_bind. by rewrite H. Qed.

Lemma db_commit_ok (w : world) :
  commit_succeeds w 0 = true →
  db_commit w =
  (Ok (), World (foldl insert_row (db w) (session w)) [] (tail (commit_outcomes w))
            (active_connections w) (send_fails w) (events w ++ [EvCommit (session w)])).
Proof.
  unfold commit_succeeds, db_commit. destruct (commit_outcomes w) as [|[] ?]; simpl;
    [done | done | discriminate].
Qed.

Lemma db_commit_fail (w : world) :
  commit_succeeds w 0 = false →
  db_commit w =
  (Raise SQLAlchemyError,
   World (db w) [] (tail (commit_outcomes w)) (active_connections w) (send_fails w)
     (events w)).
Proof.
  unfold commit_succeeds, db_commit. destruct (commit_outcomes w) as [|[] ?]; simpl;
    [discriminate | discriminate | done].
Qed.

(** ** verify_token *)

Lemma split_space_cons (s : string) : ∃ t ts, split_space s = t :: ts.
Proof.
  induction s as [|c s (t & ts & IH)]; simpl; [by eexists _, _|].
  destruct (Ascii.eqb c " "); [by eexists _, _|].
  rewrite IH. by eexists _, _.
Qed.

Lemma prefix_String (c c' : ascii) (s s' : string) :
  String.prefix (String c s) (String c' s') = true → c = c' ∧ String.prefix s s' = true.
Proof. cbn [String.prefix]. destruct (ascii_dec c c'); [done | discriminate]. Qed.

Lemma bearer_has_token (a : string) :
  String.prefix "Bearer " a = true → ∃ t, split_space a !! 1%nat = Some t.
Proof.
  intros H.
  do 7 (destruct a as [|? a]; [discriminate|];
        apply prefix_String in H as [<- H]).
  destruct (split_space_cons a) as (t & ts & E).
  exists t. simpl. by rewrite E.
Qed.

Lemma verify_token_valid {W} us (authorization : option string) (w : W) :
  token_valid us authorization = true →
  ∃ u, verify_token us authorization w = (Ok (Some u), w) ∧ dict_truthy u = true.
Proof.
  unfold token_valid, verify_token. destruct authorization as [a|]; [|discriminate].
  destruct (String.prefix "Bearer " a); [|discriminate]. simpl.
  destruct (split_space a !! 1%nat) as [token|]; [|discriminate].
  destruct (us token) as [|sc body]; [discriminate|].
  destruct (sc =? 200); [|discriminate]. simpl.
  destruct body as [u|]; [|discriminate]. simpl. intros H. by exists u.
Qed.

Lemma verify_token_invalid {W} us (authorization : option string) (w : W) :
  token_valid us authorization = false →
  verify_token us authorization w = (Raise (HTTPException 401 "Not authenticated"), w)
  ∨ ∃ u, verify_token us authorization w = (Ok u, w) ∧ opt_dict_truthy u = false.
Proof.
  unfold token_valid, verify_token. destruct authorization as [a|]; [|by left].
  destruct (String.prefix "Bearer " a) eqn:Hp; [|by left]. simpl.
  destruct (bearer_has_token a Hp) as [token ->].
  destruct (us token) as [|sc body]; [intros _; right; by exists None|].
  destruct (sc =? 200); simpl; intros H; right; [by exists body | by exists None].
Qed.

(** ** The order lookup of [start_tracking] and [update_position] *)

Lemma add_route_spec (order_id : Z) (drone_id : json) (wps : list waypoint) (w : world) :
  add_route order_id drone_id wps w =
  (Ok (), World (db w)
            (session w ++ (route_row order_id drone_id <$> wps))
            (commit_outcomes w) (active_connections w) (send_fails w) (events w)).
Proof.
  revert w. induction wps as [|wp wps IH]; intros w; simpl.
  - rewrite app_nil_r. by destruct w.
  - unfold mbind, handler_bind, db_add. rewrite IH. simpl. by rewrite <- app_assoc.
Qed.

Lemma generate_waypoints_15 (start_lat start_lng end_lat end_lng : float) :
  ∃ wps, generate_waypoints start_lat start_lng end_lat end_lng 15 = Ok wps
         ∧ length wps = 16%nat.
Proof. eexists. split; [vm_compute; reflexivity | reflexivity]. Qed.

Lemma db_commit_cases (w : world) :
  (∃ w', db_commit w = (Ok (), w')) ∨ (∃ w', db_commit w = (Raise SQLAlchemyError, w')).
Proof.
  unfold db_commit. destruct (commit_outcomes w) as [|[] ?]; eauto.
Qed.

Lemma broadcast_ok (order_id : Z) (msg : position_update) (w : world) :
  ∃ w', broadcast order_id msg w = (Ok (), w').
Proof.
  unfold broadcast, mbind, handler_bind, log, get_world. simpl.
  destruct (active_connections _ !! order_id); simpl; [|eauto].
  rewrite broadcast_loop_spec. eauto.
Qed.

Lemma order_lookup_non_200 (sc : Z) (body : option (gmap string json)) :
  sc ≠ 200 → order_lookup (Reply sc body) = Raise (HTTPException 404 "Order not found").
Proof. intros H. simpl. apply Z.eqb_neq in H. by rewrite H. Qed.

Lemma answers_bind {W A B} (S : list Z) (m : handler W A) (f : A → handler W B) :
  answers S m → (∀ a, answers S (f a)) → answers S (m ≫= f).
Proof.
  intros Hm Hf w. unfold mbind, handler_bind. specialize (Hm w).
  destruct (m w) as [[a|e] w']; [apply Hf | exact Hm].
Qed.

Lemma answers_ret {W A} (S : list Z) (a : A) : 200 ∈ S → answers (W:=W) S (mret a).
Proof. intros H w. exact H. Qed.

Lemma answers_raise {W A} (S : list Z) (e : exn) :
  http_status (@Raise A e) ∈ S → answers (W:=W) (A:=A) S (raise e).
Proof. intros H w. exact H. Qed.

Lemma answers_lift {W A} (S : list Z) (r : result A) :
  http_status r ∈ S → answers (W:=W) S (lift_result r).
Proof. intros H w. exact H. Qed.

Lemma answers_try_except {W A} (S : list Z) (body on_exn : handler W A) :
  200 ∈ S → answers S on_exn → answers S (try_except body on_exn).
Proof.
  intros H2 Hh w. unfold try_except. destruct (body w) as [[a|e] w']; [exact H2 | apply Hh].
Qed.

Lemma answers_verify_token {W} (S : list Z) us (authorization : option string) :
  200 ∈ S → 401 ∈ S → answers (W:=W) S (verify_token us authorization).
Proof.
  intros H2 H4 w. unfold verify_token. destruct authorization as [a|]; [|exact H4].
  destruct (String.prefix "Bearer " a) eqn:Hp; [|exact H4]. cbn [negb].
  destruct (bearer_has_token a Hp) as [token ->].
  destruct (us token) as [|sc body]; [exact H2|]. destruct (sc =? 200); exact H2.
Qed.

Lemma answers_db_add (S : list Z) (r : row) : 200 ∈ S → answers S (db_add r).
Proof. intros H w. exact H. Qed.

Lemma answers_db_commit (S : list Z) : 200 ∈ S → 500 ∈ S → answers S db_commit.
Proof.
  intros H2 H5 w. destruct (db_commit_cases w) as [[w' ->]|[w' ->]]; [exact H2 | exact H5].
Qed.

Lemma answers_add_route (S : list Z) (order_id : Z) (drone_id : json)
    (wps : list waypoint) : 200 ∈ S → answers S (add_route order_id drone_id wps).
Proof. intros H w. rewrite add_route_spec. exact H. Qed.

Lemma answers_broadcast (S : list Z) (order_id : Z) (msg : position_update) :
  200 ∈ S → answers S (broadcast order_id msg).
Proof. intros H w. destruct (broadcast_ok order_id msg w) as [w' ->]. exact H. Qed.

Lemma answers_number_or_raise (S : list Z) (v : json) :
  200 ∈ S → 500 ∈ S → answers (W:=world) S (number_or_raise v).
Proof.
  intros H2 H5 w. unfold number_or_raise. destruct (json_number v); [exact H2 | exact H5].
Qed.

Lemma order_lookup_status (reply : http_reply (gmap string json)) :
  http_status (order_lookup reply) ∈ [200; 404; 500].
Proof.
  destruct reply as [|sc [body|]]; simpl; [repeat constructor| |];
    destruct (sc =? 200); simpl; repeat constructor.
Qed.

Lemma start_tracking_status (env : collaborators) (order_id : Z)
    (authorization : option string) :
  answers [200; 401; 503; 400; 500] (start_tracking env order_id authorization).
Proof.
  assert (H200 : 200 ∈ [200; 401; 503; 400; 500]) by repeat constructor.
  assert (H401 : 401 ∈ [200; 401; 503; 400; 500]) by repeat constructor.
  assert (H503 : 503 ∈ [200; 401; 503; 400; 500]) by repeat constructor.
  assert (H400 : 400 ∈ [200; 401; 503; 400; 500]) by repeat constructor.
  assert (H500 : 500 ∈ [200; 401; 503; 400; 500]) by repeat constructor.
  unfold start_tracking.
  apply answers_bind; [by apply answers_verify_token|]. intros user.
  destruct (negb (opt_dict_truthy user)); [by apply answers_raise|].
  apply answers_bind; [apply answers_try_except; [done | by apply answers_raise]|].
  intros order.
  destruct (negb (truthy (dict_get order "drone_id"))); [by apply answers_raise|].
  do 4 (apply answers_bind; [by apply answers_number_or_raise|]; intros ?).
  apply answers_bind.
  { apply answers_lift.
    match goal with |- context [generate_waypoints ?a ?b ?c ?d 15] =>
      destruct (generate_waypoints_15 a b c d) as (wps & -> & _) end. exact H200. }
  intros wps.
  apply answers_bind; [by apply answers_add_route|]. intros _.
  apply answers_bind; [by apply answers_db_commit|]. intros _.
  apply answers_bind; [by apply answers_db_add|]. intros _.
  apply answers_bind; [by apply answers_db_commit|]. intros _.
  by apply answers_ret.
Qed.

Lemma update_position_status (env : collaborators) (order_id : Z)
    (latitude longitude altitude speed : float) (battery_level : option float)
    (status : option string) :
  answers [200; 503; 500]
    (update_position env order_id latitude longitude altitude speed battery_level status).
Proof.
  assert (H200 : 200 ∈ [200; 503; 500]) by repeat constructor.
  assert (H503 : 503 ∈ [200; 503; 500]) by repeat constructor.
  assert (H500 : 500 ∈ [200; 503; 500]) by repeat constructor.
  unfold update_position.
  apply answers_bind; [apply answers_try_except; [done | by apply answers_raise]|].
  intros drone_id.
  apply answers_bind; [by apply answers_db_add|]. intros _.
  apply answers_bind; [by apply answers_db_commit|]. intros _.
  apply answers_bind; [by apply answers_broadcast|]. intros _.
  apply answers_bind; [intros w; exact H200|]. intros w.
  by apply answers_ret.
Qed.

(** C10: in [start_tracking] (once the token is accepted) and in
    [update_position], an answer of the order service other than 200 ends the
    request with 503 "Order service unavailable": the 404 raised inside the
    [try] is caught by the bare [except]. Neither endpoint answers 404 on any
    input. *)
Theorem order_lookup_failure_is_503 (env : collaborators) (order_id : Z)
    (authorization : option string) (latitude longitude altitude speed : float)
    (battery_level : option float) (status : option string) (w : world) :
  (∀ sc body,
     token_valid (user_service env) authorization = true →
     order_service env order_id authorization = Reply sc body → sc ≠ 200 →
     (start_tracking env order_id authorization w).1 =
     Raise (HTTPException 503 "Order service unavailable"))
  ∧ (∀ sc body,
       order_service env order_id None = Reply sc body → sc ≠ 200 →
       (update_position env order_id latitude longitude altitude speed battery_level
          status w).1 = Raise (HTTPException 503 "Order service unavailable"))
  ∧ http_status (start_tracking env order_id authorization w).1 ≠ 404
  ∧ http_status (update_position env order_id latitude longitude altitude speed
                   battery_level status w).1 ≠ 404.
Proof.
  split; [|split; [|split]].
  - intros sc body Hv Hr Hsc. unfold start_tracking, mbind at 1, handler_bind at 1.
    destruct (verify_token_valid _ _ w Hv) as (u & -> & Hu). simpl. rewrite Hu. simpl.
    unfold mbind at 1, handler_bind at 1, try_except, lift_result.
    rewrite Hr, order_lookup_non_200 by done. done.
  - intros sc body Hr Hsc. unfold update_position, mbind at 1, handler_bind at 1.
    unfold try_except, mbind at 1, handler_bind at 1, lift_result.
    rewrite Hr, order_lookup_non_200 by done. done.
  - pose proof (start_tracking_status env order_id authorization w) as H.
    intros E. rewrite E in H. by apply list_elem_of_In in H; simpl in H; intuition lia.
  - pose proof (update_position_status env order_id latitude longitude altitude speed
                  battery_level status w) as H.
    intros E. rewrite E in H. by apply list_elem_of_In in H; simpl in H; intuition lia.
Qed.

(** C10 at a concrete request: a valid token, an order service that answers
    404 for order 42. *)
Lemma order_lookup_failure_is_503_witness :
  let env := Collaborators (λ _, Reply 200 (Some {[ "role" := JStr "admin" ]}))
               (λ _ _, Reply 404 None) in
  (start_tracking env 42 (Some "Bearer t") quiet_world).1 =
    Raise (HTTPException 503 "Order service unavailable")
  ∧ (update_position env 42 10.5 106.5 50 30 None None quiet_world).1 =
    Raise (HTTPException 503 "Order service unavailable").
Proof.
  intros env.
  destruct (order_lookup_failure_is_503 env 42 (Some "Bearer t") 10.5 106.5 50 30
              None None quiet_world) as (H1 & H2 & _).
  split.
  - apply (H1 404 None); [reflexivity | reflexivity | lia].
  - apply (H2 404 None); [reflexivity | lia].
Defined.

(** ** start_tracking: what is committed, and when *)

Lemma foldl_insert_routes (d : database) (order_id : Z) (drone_id : json)
    (wps : list waypoint) :
  foldl insert_row d (route_row order_id drone_id <$> wps) =
  Database (delivery_routes d ++ (route_of order_id drone_id <$> wps))
    (delivery_tracking_rows d).
Proof.
  revert d. induction wps as [|wp wps IH]; intros d; simpl.
  - rewrite app_nil_r. by destruct d.
  - rewrite IH. simpl. by rewrite <- app_assoc.
Qed.

(** C3, refuted as stated: the first commit of [start_tracking] is accepted
    and the second is not. The request fails, and the store holds the sixteen
    waypoints without an initial sample. *)
Lemma start_tracking_not_atomic :
  let w := World empty_database [] [true; false] ∅ (λ _, false) [] in
  let r := start_tracking friendly 42 (Some "Bearer t") w in
  r.1 = Raise SQLAlchemyError
  ∧ length (delivery_routes (db r.2)) = 16%nat
  ∧ delivery_tracking_rows (db r.2) = []
  ∧ db r.2 ≠ db w.
Proof.
  vm_compute. repeat split. discriminate.
Qed.

Lemma start_tracking_run (env : collaborators) (order_id : Z)
    (authorization : option string) (w : world) (order : gmap string json)
    (start_lat start_lng end_lat end_lng : float) (wps : list waypoint) :
  token_valid (user_service env) authorization = true →
  order_lookup (order_service env order_id authorization) = Ok order →
  truthy (dict_get order "drone_id") = true →
  json_number (dict_get_or order "restaurant_lat" (JFloat 10.762622)) = Some start_lat →
  json_number (dict_get_or order "restaurant_lng" (JFloat 106.660172)) = Some start_lng →
  json_number (dict_get_or order "delivery_lat" (JFloat 10.775845)) = Some end_lat →
  json_number (dict_get_or order "delivery_lng" (JFloat 106.701758)) = Some end_lng →
  generate_waypoints start_lat start_lng end_lat end_lng 15 = Ok wps →
  start_tracking env order_id authorization w =
  (db_commit;;
   db_add (TrackingRow (DeliveryTracking order_id (dict_get order "drone_id")
             start_lat start_lng 0 0
             (json_number (dict_get_or order "battery_level" (JInt 100)))
             (Some "taking_off")));;
   db_commit;;
   mret (TrackingStarted order_id (dict_get order "drone_id") (Z.of_nat (length wps))))
    (World (db w) (session w ++ (route_row order_id (dict_get order "drone_id") <$> wps))
       (commit_outcomes w) (active_connections w) (send_fails w) (events w)).
Proof.
  intros Hv Ho Hd H1 H2 H3 H4 Hg. unfold start_tracking.
  destruct (verify_token_valid _ _ w Hv) as (u & Hverify & Hu).
  rewrite (bind_ok _ _ _ _ _ Hverify).
  change (opt_dict_truthy (Some u)) with (dict_truthy u). rewrite Hu. cbn [negb].
  erewrite bind_ok; [|unfold try_except, lift_result; rewrite Ho; reflexivity].
  rewrite Hd. cbn [negb].
  unfold number_or_raise. rewrite H1, H2, H3, H4.
  do 4 (erewrite bind_ok; [|reflexivity]).
  erewrite bind_ok; [|unfold lift_result; rewrite Hg; reflexivity].
  erewrite bind_ok; [|apply add_route_spec]. reflexivity.
Qed.

(** C3, as the code has it. For an accepted token, an order that is found
    with a drone and numeric coordinates, and a fresh session,
    [start_tracking] commits twice: the sixteen waypoints in one transaction,
    then the initial sample (status "taking_off", altitude 0, speed 0) in a
    second one. When the first commit fails the store is unchanged. When the
    second fails the request fails and the store keeps the whole route
    without the sample. A part of the waypoint list is never committed. *)
Theorem start_tracking_two_commits (env : collaborators) (order_id : Z)
    (authorization : option string) (w : world) (order : gmap string json)
    (start_lat start_lng end_lat end_lng : float) :
  token_valid (user_service env) authorization = true →
  order_lookup (order_service env order_id authorization) = Ok order →
  truthy (dict_get order "drone_id") = true →
  json_number (dict_get_or order "restaurant_lat" (JFloat 10.762622)) = Some start_lat →
  json_number (dict_get_or order "restaurant_lng" (JFloat 106.660172)) = Some start_lng →
  json_number (dict_get_or order "delivery_lat" (JFloat 10.775845)) = Some end_lat →
  json_number (dict_get_or order "delivery_lng" (JFloat 106.701758)) = Some end_lng →
  session w = [] →
  ∃ wps,
    generate_waypoints start_lat start_lng end_lat end_lng 15 = Ok wps
    ∧ length wps = 16%nat
    ∧ let drone_id := dict_get order "drone_id" in
      let routes := route_row order_id drone_id <$> wps in
      let initial :=
        DeliveryTracking order_id drone_id start_lat start_lng 0 0
          (json_number (dict_get_or order "battery_level" (JInt 100)))
          (Some "taking_off") in
      let r := start_tracking env order_id authorization w in
      (commit_succeeds w 0 = false →
         r.1 = Raise SQLAlchemyError ∧ db r.2 = db w ∧ events r.2 = events w)
      ∧ (commit_succeeds w 0 = true → commit_succeeds w 1 = false →
           r.1 = Raise SQLAlchemyError
           ∧ delivery_routes (db r.2) =
               delivery_routes (db w) ++ (route_of order_id drone_id <$> wps)
           ∧ delivery_tracking_rows (db r.2) = delivery_tracking_rows (db w)
           ∧ events r.2 = events w ++ [EvCommit routes])
      ∧ (commit_succeeds w 0 = true → commit_succeeds w 1 = true →
           r.1 = Ok (TrackingStarted order_id drone_id 16)
           ∧ delivery_routes (db r.2) =
               delivery_routes (db w) ++ (route_of order_id drone_id <$> wps)
           ∧ delivery_tracking_rows (db r.2) = delivery_tracking_rows (db w) ++ [initial]
           ∧ events r.2 = events w ++ [EvCommit routes; EvCommit [TrackingRow initial]]).
Proof.
  intros Hv Ho Hd H1 H2 H3 H4 Hs.
  destruct (generate_waypoints_15 start_lat start_lng end_lat end_lng) as (wps & Hg & Hl).
  exists wps. split; [done|]. split; [done|]. cbv zeta.
  set (drone_id := dict_get order "drone_id").
  set (initial := DeliveryTracking order_id drone_id start_lat start_lng 0 0
                    (json_number (dict_get_or order "battery_level" (JInt 100)))
                    (Some "taking_off")).
  set (w1 := World (db w) (route_row order_id drone_id <$> wps) (commit_outcomes w)
               (active_connections w) (send_fails w) (events w)).
  assert (Hrun : start_tracking env order_id authorization w =
    (db_commit;;
     db_add (TrackingRow initial);;
     db_commit;;
     mret (TrackingStarted order_id drone_id (Z.of_nat (length wps)))) w1).
  { rewrite (start_tracking_run env order_id authorization w order start_lat start_lng
               end_lat end_lng wps) by done.
    rewrite Hs. reflexivity. }
  rewrite Hrun, Hl. clear Hrun.
  assert (Hc0 : commit_succeeds w1 0 = commit_succeeds w 0) by reflexivity.
  split; [|split].
  - intros Hf. rewrite <- Hc0 in Hf.
    rewrite (bind_raise _ _ _ _ _ (db_commit_fail w1 Hf)).
    cbn [fst snd db events w1]. repeat split.
  - intros Ht Hf. rewrite <- Hc0 in Ht.
    rewrite (bind_ok _ _ _ _ _ (db_commit_ok w1 Ht)).
    erewrite bind_ok; [|reflexivity].
    erewrite bind_raise; [|apply db_commit_fail; rewrite <- Hf; unfold commit_succeeds;
      cbn [commit_outcomes w1]; by destruct (commit_outcomes w)].
    cbn [fst snd db events session w1]. rewrite foldl_insert_routes.
    cbn [delivery_routes delivery_tracking_rows]. repeat split.
  - intros Ht Ht'. rewrite <- Hc0 in Ht.
    rewrite (bind_ok _ _ _ _ _ (db_commit_ok w1 Ht)).
    erewrite bind_ok; [|reflexivity].
    erewrite bind_ok; [|apply db_commit_ok; rewrite <- Ht'; unfold commit_succeeds;
      cbn [commit_outcomes w1]; by destruct (commit_outcomes w)].
    cbn [fst snd db events session w1 mret handler_ret].
    rewrite foldl_insert_routes. cbn [foldl insert_row delivery_routes
      delivery_tracking_rows app]. rewrite <- app_assoc. repeat split.
Qed.

(** C3 at a concrete request where both commits are accepted. *)
Lemma start_tracking_two_commits_witness :
  ∃ wps,
    generate_waypoints 10.762622 106.660172 10.775845 106.701758 15 = Ok wps
    ∧ length (delivery_routes (db (start_tracking friendly 42 (Some "Bearer t")
                                     quiet_world).2)) = 16%nat
    ∧ length (delivery_tracking_rows (db (start_tracking friendly 42 (Some "Bearer t")
                                            quiet_world).2)) = 1%nat.
Proof.
  destruct (start_tracking_two_commits friendly 42 (Some "Bearer t") quiet_world
              {[ "drone_id" := JInt 3 ]} 10.762622 106.660172 10.775845 106.701758)
    as (wps & Hg & Hl & H); [vm_compute; reflexivity..|].
  cbv zeta in H. destruct H as (_ & _ & H).
  destruct H as (_ & Hr & Ht & _); [reflexivity | reflexivity |].
  exists wps. split; [exact Hg|].
  rewrite Hr, Ht, !length_app, length_fmap, Hl. split; reflexivity.
Defined.

(** ** Which endpoints check the token *)

(** C9, refuted as stated: the three endpoints the claim names write to the
    store on a request that carries no [Authorization] header at all. *)
Lemma writes_without_token :
  let w := Drone.World Drone.empty_database [] [] 0 [] in
  let logged :=
    Drone.serve Drone.offline None
      (Drone.LogBatteryStatus 1 15 None None None None) w in
  let p := Drone.DronePerformance 1 (Some 4) (Some 10%float) (Some 30) (Some 20%float)
             (Some 100%float) None in
  let wp := Drone.World (Drone.Database [] [] [p] [] []) [] [] 0 [] in
  let updated := Drone.serve Drone.offline None (Drone.UpdatePerformance 1 1 5 30 true) wp in
  let moved := serve_delivery friendly None (UpdatePosition 42 10.5 106.5 50 30 None None)
                 quiet_world in
  (logged.1 = Ok () ∧ length (Drone.drone_battery_logs (Drone.db logged.2)) = 1%nat
   ∧ length (Drone.drone_alerts (Drone.db logged.2)) = 1%nat)
  ∧ (updated.1 = Ok ()
     ∧ Drone.dp_total_deliveries <$> Drone.drone_performance_rows (Drone.db updated.2)
       = [Some 5])
  ∧ (moved.1 = Ok () ∧ length (delivery_tracking_rows (db moved.2)) = 1%nat).
Proof. vm_compute. repeat split. Qed.

(** C9, as the code has it. The handlers that declare the [Authorization]
    header ([update_drone_status], [schedule_maintenance],
    [complete_maintenance], [resolve_alert] and, in the delivery service,
    [start_tracking]) reject a request whose token is missing or invalid with
    401 or 403 and leave the state as it was. [update_performance],
    [log_battery_status] and [update_position] declare no such header: what
    they do does not depend on it. *)
Theorem token_checked_where_declared (denv : Drone.collaborators) (env : collaborators)
    (authorization : option string) :
  (∀ req w,
     Drone.declares_authorization req = true →
     token_valid (Drone.user_service denv) authorization = false →
     let r := Drone.serve denv authorization req w in
     (r.1 = Raise (HTTPException 401 "Not authenticated")
      ∨ r.1 = Raise (HTTPException 403 "Admin access required"))
     ∧ r.2 = w)
  ∧ (∀ order_id w,
       token_valid (user_service env) authorization = false →
       let r := serve_delivery env authorization (StartTracking order_id) w in
       (r.1 = Raise (HTTPException 401 "Not authenticated")
        ∨ r.1 = Raise (HTTPException 401 "Invalid token"))
       ∧ r.2 = w)
  ∧ (∀ req other,
       Drone.declares_authorization req = false →
       Drone.serve denv authorization req = Drone.serve denv other req)
  ∧ (∀ order_id latitude longitude altitude speed battery_level status other,
       serve_delivery env authorization
         (UpdatePosition order_id latitude longitude altitude speed battery_level status)
       = serve_delivery env other
           (UpdatePosition order_id latitude longitude altitude speed battery_level
              status)).
Proof.
  split; [|split; [|split]].
  - intros req w Hd Hv.
    destruct req; try discriminate Hd; cbv zeta;
      unfold Drone.serve, Drone.update_drone_status, Drone.schedule_maintenance,
        Drone.complete_maintenance, Drone.resolve_alert, mbind, handler_bind;
      (destruct (verify_token_invalid (Drone.user_service denv) authorization w Hv)
         as [->|(u & -> & Hu)]; simpl; [by split; [left|] |]);
      rewrite Hu; simpl; by split; [right|].
  - intros order_id w Hv. cbv zeta.
    unfold serve_delivery, start_tracking, mbind, handler_bind.
    destruct (verify_token_invalid (user_service env) authorization w Hv)
      as [->|(u & -> & Hu)]; simpl; [by split; [left|] |].
    rewrite Hu. simpl. by split; [right|].
  - intros req other Hd. destruct req; try discriminate Hd; reflexivity.
  - reflexivity.
Qed.

(** C9 at concrete requests: no header on a status update, a header that is
    not a bearer token on [start_tracking]. *)
Lemma token_checked_where_declared_witness :
  (Drone.serve Drone.offline None
     (Drone.ResolveAlert 1) (Drone.World Drone.empty_database [] [] 0 [])).2
  = Drone.World Drone.empty_database [] [] 0 []
  ∧ (serve_delivery friendly (Some "Basic abc") (StartTracking 42) quiet_world).2
    = quiet_world.
Proof.
  destruct (token_checked_where_declared Drone.offline friendly None) as (H1 & _).
  destruct (token_checked_where_declared Drone.offline friendly (Some "Basic abc"))
    as (_ & H2 & _).
  split.
  - apply (H1 (Drone.ResolveAlert 1)); reflexivity.
  - apply (H2 42 quiet_world). reflexivity.
Defined.

(** * Further properties of the two services *)

(** ** verify_token *)

Lemma verify_token_run {W} us (authorization : option string) (w : W) :
  verify_token us authorization w =
  match authorization with
  | None => (Raise (HTTPException 401 "Not authenticated"), w)
  | Some a =>
    if String.prefix "Bearer " a then
      (Ok (user_for us (default EmptyString (split_space a !! 1%nat))), w)
    else (Raise (HTTPException 401 "Not authenticated"), w)
  end.
Proof.
  unfold verify_token, user_for. destruct authorization as [a|]; [|done].
  destruct (String.prefix "Bearer " a) eqn:Hp; [|done]. cbn [negb].
  destruct (bearer_has_token a Hp) as [token ->].
  change (default EmptyString (Some token)) with token.
  destruct (us token) as [|sc body]; [reflexivity|]. destruct (sc =? 200); reflexivity.
Qed.

(** X1: [verify_token] never changes the state; the only exception it raises
    is 401 "Not authenticated", and it raises it exactly when the header is
    missing or does not start with [Bearer ]; a user is returned only when
    the user service answered 200 with that JSON body. *)
Theorem verify_token_outcomes {W} us (authorization : option string) (w : W) :
  (verify_token us authorization w).2 = w
  ∧ ((verify_token us authorization w).1 = Raise (HTTPException 401 "Not authenticated")
     ↔ authorization = None
       ∨ ∃ a, authorization = Some a ∧ String.prefix "Bearer " a = false)
  ∧ (∀ e, (verify_token us authorization w).1 = Raise e →
          e = HTTPException 401 "Not authenticated")
  ∧ (∀ u, (verify_token us authorization w).1 = Ok (Some u) →
          ∃ token, us token = Reply 200 (Some u)).
Proof.
  rewrite verify_token_run. destruct authorization as [a|].
  - destruct (String.prefix "Bearer " a) eqn:Hp; cbn [fst snd].
    + split; [done|]. split; [|split].
      * split; [discriminate|]. intros [?|(a' & [= <-] & Hf)]; congruence.
      * discriminate.
      * intros u [= Hu]. unfold user_for in Hu.
        destruct (us _) as [|sc body] eqn:E; [discriminate|].
        destruct (sc =? 200) eqn:Hsc; [|discriminate]. apply Z.eqb_eq in Hsc.
        subst. eauto.
    + split; [done|]. split; [|split].
      * split; [|done]. intros _. right. eauto.
      * by intros e [= <-].
      * discriminate.
  - cbn [fst snd]. split; [done|]. split; [|split].
    + split; [by left | done].
    + by intros e [= <-].
    + discriminate.
Qed.

Lemma split_space_no_space (t : string) : has_space t = false → split_space t = [t].
Proof.
  induction t as [|c t IH]; [done|]. simpl. destruct (Ascii.eqb c " "); [done|].
  simpl. intros H. by rewrite IH.
Qed.

Lemma split_space_first (t rest : string) :
  has_space t = false → split_space (t +:+ String " " rest) = t :: split_space rest.
Proof.
  induction t as [|c t IH]; simpl; [done|].
  destruct (Ascii.eqb c " "); [done|]. simpl. intros H. by rewrite IH.
Qed.

(** X2: the token that reaches the user service is the text between the
    first and the second space of the header: for a token without a space the
    whole of it, and whatever follows a further space is ignored. *)
Theorem verify_token_token {W} us (t rest : string) (w : W) :
  has_space t = false →
  verify_token us (Some ("Bearer " +:+ t)) w = (Ok (user_for us t), w)
  ∧ verify_token us (Some ("Bearer " +:+ t +:+ String " " rest)) w
    = (Ok (user_for us t), w).
Proof.
  intros Ht. rewrite !verify_token_run.
  change (String.prefix "Bearer " ("Bearer " +:+ t)) with (String.prefix "" t).
  change (String.prefix "Bearer " ("Bearer " +:+ t +:+ String " " rest))
    with (String.prefix "" (t +:+ String " " rest)).
  assert (Hp : ∀ s, String.prefix "" s = true) by (by intros []).
  rewrite !Hp.
  change (split_space ("Bearer " +:+ t)) with (split_space ("Bearer" +:+ String " " t)).
  change (split_space ("Bearer " +:+ t +:+ String " " rest))
    with (split_space ("Bearer" +:+ String " " (t +:+ String " " rest))).
  rewrite !(split_space_first "Bearer") by done.
  rewrite split_space_first, split_space_no_space by done. done.
Qed.

(** X2 at a concrete header. *)
Lemma verify_token_token_witness :
  verify_token (W:=world) (user_service friendly) (Some "Bearer abc def") quiet_world
  = (Ok (user_for (user_service friendly) "abc"), quiet_world).
Proof.
  exact (proj2 (verify_token_token (user_service friendly) "abc" "def" quiet_world
                  eq_refl)).
Defined.

(** ** ConnectionManager: connect, disconnect, broadcast together *)

Lemma broadcast_run (order_id : Z) (msg : position_update) (w : world) :
  broadcast order_id msg w =
  (Ok (), World (db w) (session w) (commit_outcomes w) (active_connections w)
            (send_fails w)
            (events w ++ EvBroadcast order_id msg ::
               ((λ ws, EvSend ws msg) <$>
                  filter (λ ws, send_fails w ws = false) (subscribers w order_id)))).
Proof.
  unfold broadcast, subscribers, mbind, handler_bind, log, get_world. simpl.
  destruct (active_connections w !! order_id) as [conns|] eqn:E; simpl.
  - rewrite broadcast_loop_spec. simpl. by rewrite <- app_assoc.
  - done.
Qed.

Lemma connect_run (ws : websocket) (order_id : Z) (w : world) :
  connect ws order_id w =
  (Ok (), World (db w) (session w) (commit_outcomes w)
            (<[order_id := subscribers w order_id ++ [ws]]> (active_connections w))
            (send_fails w) (events w)).
Proof.
  unfold connect, subscribers, set_connections.
  by destruct (active_connections w !! order_id).
Qed.

Lemma subscribers_insert (w : world) (order_id o : Z) (l : list websocket) d s c f e :
  subscribers (World d s c (<[order_id := l]> (active_connections w)) f e) o =
  if decide (order_id = o) then l else subscribers w o.
Proof.
  unfold subscribers. cbn [active_connections]. rewrite lookup_insert.
  by destruct (decide (order_id = o)).
Qed.

Lemma list_remove_last (ws : websocket) (l : list websocket) :
  ws ∉ l → list_remove ws (l ++ [ws]) = Some l.
Proof.
  induction l as [|y l IH]; simpl; intros Hn.
  - by rewrite Nat.eqb_refl.
  - apply not_elem_of_cons in Hn as [Hne Hn].
    destruct (Nat.eqb_spec y ws) as [->|_]; [done|]. by rewrite IH.
Qed.

Lemma filter_all {A} (P : A → Prop) `{!∀ x, Decision (P x)} (l : list A) :
  Forall P l → filter P l = l.
Proof.
  induction 1 as [|x l Hx Hl IH]; [done|]. rewrite filter_cons_True by done. by rewrite IH.
Qed.

Lemma list_remove_NoDup (ws : websocket) (l : list websocket) :
  NoDup l → ws ∈ l → list_remove ws l = Some (filter (λ x, x ≠ ws) l).
Proof.
  induction 1 as [|y l Hy Hl IH]; [by intros ?%elem_of_nil|].
  intros Hin. simpl. destruct (Nat.eqb_spec y ws) as [->|Hne].
  - rewrite filter_cons_False by (intros H; by apply H). f_equal.
    symmetry. apply filter_all, Forall_forall. intros x Hx ->. done.
  - rewrite filter_cons_True by done. apply elem_of_cons in Hin as [->|Hin]; [done|].
    by rewrite IH.
Qed.

(** X3: subscribing a connection that is not yet registered for the order
    and unsubscribing it again succeeds and gives back the subscriber list of
    every order; nothing else of the state moves. *)
Theorem connect_disconnect_round_trip (ws : websocket) (order_id : Z) (w : world) :
  ws ∉ subscribers w order_id →
  let w1 := (connect ws order_id w).2 in
  let r := disconnect ws order_id w1 in
  r.1 = Ok ()
  ∧ (∀ o, subscribers r.2 o = subscribers w o)
  ∧ db r.2 = db w ∧ session r.2 = session w ∧ events r.2 = events w.
Proof.
  intros Hn. cbv zeta. rewrite connect_run. cbn [snd].
  unfold disconnect. cbn [active_connections]. rewrite lookup_insert_eq.
  rewrite list_remove_last by done. unfold set_connections.
  cbn [fst snd db session events active_connections commit_outcomes send_fails].
  repeat split. intros o. unfold subscribers at 1. cbn [active_connections].
  rewrite insert_insert_eq, lookup_insert. destruct (decide (order_id = o)) as [->|]; done.
Qed.

(** X3 on the empty registry. *)
Lemma connect_disconnect_round_trip_witness :
  subscribers (disconnect 7%nat 42 (connect 7%nat 42 quiet_world).2).2 42
  = subscribers quiet_world 42.
Proof.
  destruct (connect_disconnect_round_trip 7%nat 42 quiet_world) as (_ & H & _).
  - change (subscribers quiet_world 42) with (@nil websocket). apply not_elem_of_nil.
  - apply H.
Defined.

(** X4: once a connection that was registered once for an order has been
    unsubscribed, a [broadcast] to that order sends it nothing, and still
    reaches every other subscriber whose send succeeds. *)
Theorem unsubscribed_receives_nothing (ws : websocket) (order_id : Z) (w : world)
    (msg : position_update) :
  NoDup (subscribers w order_id) → ws ∈ subscribers w order_id →
  let d := disconnect ws order_id w in
  let r := broadcast order_id msg d.2 in
  d.1 = Ok ()
  ∧ (∀ m, EvSend ws m ∈ events r.2 → EvSend ws m ∈ events w)
  ∧ (∀ ws', ws' ≠ ws → ws' ∈ subscribers w order_id → send_fails w ws' = false →
            EvSend ws' msg ∈ events r.2).
Proof.
  intros Hnd Hin. cbv zeta. unfold disconnect.
  unfold subscribers in Hnd, Hin.
  destruct (active_connections w !! order_id) as [conns|] eqn:E;
    [|by apply elem_of_nil in Hin].
  cbn [default] in Hnd, Hin. rewrite (list_remove_NoDup ws conns Hnd Hin).
  unfold set_connections. cbn [fst snd]. rewrite broadcast_run.
  cbn [fst snd events send_fails]. rewrite subscribers_insert, decide_True by done.
  split; [done|]. split.
  - intros m [Hm|Hm]%elem_of_app; [done|].
    apply elem_of_cons in Hm as [Hm|Hm]; [discriminate|].
    apply list_elem_of_fmap in Hm as (x & [= -> ->] & Hx).
    apply list_elem_of_filter in Hx as [_ Hx]. apply list_elem_of_filter in Hx as [Hx _].
    done.
  - intros ws' Hne Hin' Hok. apply elem_of_app. right. right.
    apply list_elem_of_fmap. exists ws'. split; [done|].
    apply list_elem_of_filter. split; [done|]. unfold subscribers in Hin'.
    rewrite E in Hin'. by apply list_elem_of_filter.
Qed.

(** X4 with three subscribers, the second of which leaves. *)
Lemma unsubscribed_receives_nothing_witness :
  let msg := PositionUpdate 42 (JInt 3) 10.5 106.5 50 30 None None None None in
  let w := World empty_database [] [] {[ 42 := [1; 2; 3]%nat ]} (λ _, false) [] in
  EvSend 1%nat msg ∈ events (broadcast 42 msg (disconnect 2%nat 42 w).2).2
  ∧ ¬ EvSend 2%nat msg ∈ events (broadcast 42 msg (disconnect 2%nat 42 w).2).2.
Proof.
  intros msg w.
  destruct (unsubscribed_receives_nothing 2%nat 42 w msg) as (_ & H1 & H2).
  - change (NoDup [1; 2; 3]%nat). by apply (bool_decide_unpack _).
  - vm_compute. repeat constructor.
  - split.
    + apply H2; [lia | vm_compute; repeat constructor | reflexivity].
    + intros H. apply H1 in H. by apply elem_of_nil in H.
Defined.

(** ** update_position *)

Lemma order_lookup_200 (order : gmap string json) :
  order_lookup (Reply 200 (Some order)) = Ok order.
Proof. reflexivity. Qed.

Lemma order_lookup_not_found (reply : http_reply (gmap string json)) :
  (∀ order, reply ≠ Reply 200 (Some order)) → ∃ e, order_lookup reply = Raise e.
Proof.
  intros H. destruct reply as [|sc [order|]]; simpl; [by eexists| |].
  - destruct (sc =? 200) eqn:E; simpl; [|by eexists].
    apply Z.eqb_eq in E. subst. by destruct (H order).
  - destruct (sc =? 200); simpl; by eexists.
Qed.



(** X6: when the order service is unreachable, answers another status than
    200 or sends no JSON, [update_position] answers 503 and leaves the state
    untouched; when the order is found and the store refuses the commit, the
    request fails with the store's error, nothing is stored and nothing is
    published. *)
Theorem update_position_failures (env : collaborators) (order_id : Z)
    (latitude longitude altitude speed : float) (battery_level : option float)
    (status : option string) (w : world) :
  let r := update_position env order_id latitude longitude altitude speed battery_level
             status w in
  ((∀ order, order_service env order_id None ≠ Reply 200 (Some order)) →
   r = (Raise (HTTPException 503 "Order service unavailable"), w))
  ∧ (∀ order, order_service env order_id None = Reply 200 (Some order) →
       commit_succeeds w 0 = false →
       r.1 = Raise SQLAlchemyError ∧ db r.2 = db w ∧ events r.2 = events w).
Proof.
  cbv zeta. unfold update_position. split.
  - intros Hn. destruct (order_lookup_not_found _ Hn) as [e He].
    erewrite bind_raise; [reflexivity|].
    unfold try_except. erewrite bind_raise; [reflexivity|].
    unfold lift_result. by rewrite He.
  - intros order Ho Hc.
    erewrite bind_ok;
      [|unfold try_except; erewrite bind_ok;
        [reflexivity | unfold lift_result; rewrite Ho, order_lookup_200; reflexivity]].
    erewrite bind_ok; [|reflexivity].
    erewrite bind_raise; [|apply db_commit_fail; exact Hc].
    repeat split.
Qed.

(** X6 when the order service cannot be reached. *)
Lemma update_position_failures_witness :
  update_position (Collaborators (λ _, Unreachable) (λ _ _, Unreachable)) 42 10.5 106.5 50 30
    None None quiet_world
  = (Raise (HTTPException 503 "Order service unavailable"), quiet_world).
Proof.
  apply (update_position_failures (Collaborators (λ _, Unreachable) (λ _ _, Unreachable))
           42 10.5 106.5 50 30 None None quiet_world).
  intros order. discriminate.
Defined.

(** ** simulate_drone_movement *)

Lemma published_app (l1 l2 : list event) : published (l1 ++ l2) = published l1 ++ published l2.
Proof. apply omap_app. Qed.

Lemma committed_app (l1 l2 : list event) : committed (l1 ++ l2) = committed l1 ++ committed l2.
Proof. apply omap_app. Qed.

Lemma published_sends (msg : position_update) (l : list websocket) :
  published ((λ ws, EvSend ws msg) <$> l) = [].
Proof. by induction l. Qed.

Lemma committed_sends (msg : position_update) (l : list websocket) :
  committed ((λ ws, EvSend ws msg) <$> l) = [].
Proof. by induction l. Qed.

Lemma simulate_step_ok (order_id : Z) (drone_id : json) (total i : Z) (battery : float)
    (wp : delivery_route) (rest : list delivery_route) (w : world) :
  session w = [] → commit_succeeds w 0 = true →
  let s := simulated_sample order_id drone_id total i battery wp in
  let msg := simulated_message total i s in
  simulate_loop order_id drone_id total i battery (wp :: rest) w =
  simulate_loop order_id drone_id total (i + 1) (battery - 0.5)%float rest
    (World (Database (delivery_routes (db w)) (delivery_tracking_rows (db w) ++ [s])) []
       (tail (commit_outcomes w)) (active_connections w) (send_fails w)
       ((events w ++ [EvCommit [TrackingRow s]]) ++
        (EvBroadcast order_id msg ::
           ((λ ws, EvSend ws msg) <$>
              filter (λ ws, send_fails w ws = false) (subscribers w order_id))) ++
        [EvSleep 2])).
Proof.
  intros Hs Hc. cbv zeta. cbn [simulate_loop].
  erewrite bind_ok; [|reflexivity].
  erewrite bind_ok; [|apply db_commit_ok; exact Hc].
  erewrite bind_ok; [|apply broadcast_run].
  erewrite bind_ok; [|reflexivity].
  cbn [db session events send_fails active_connections commit_outcomes].
  rewrite Hs. cbn [app foldl insert_row]. rewrite <- !app_assoc. reflexivity.
Qed.

Lemma simulate_step_fail (order_id : Z) (drone_id : json) (total i : Z) (battery : float)
    (wp : delivery_route) (rest : list delivery_route) (w : world) :
  commit_succeeds w 0 = false →
  let r := simulate_loop order_id drone_id total i battery (wp :: rest) w in
  r.1 = Raise SQLAlchemyError ∧ db r.2 = db w ∧ events r.2 = events w.
Proof.
  intros Hc. cbv zeta. cbn [simulate_loop].
  erewrite bind_ok; [|reflexivity].
  erewrite bind_raise; [|apply db_commit_fail; exact Hc].
  repeat split.
Qed.

Lemma accepted_nil (n : nat) : accepted [] n = n.
Proof. by destruct n. Qed.

Lemma published_step (evs : list event) (c : list row) (order_id : Z)
    (msg : position_update) (l : list websocket) :
  published ((evs ++ [EvCommit c]) ++
             (EvBroadcast order_id msg :: ((λ ws, EvSend ws msg) <$> l)) ++ [EvSleep 2])
  = published evs ++ [msg].
Proof.
  rewrite !published_app.
  change (published (EvBroadcast order_id msg :: ((λ ws, EvSend ws msg) <$> l)))
    with (msg :: published ((λ ws, EvSend ws msg) <$> l)).
  rewrite published_sends. cbn. by rewrite app_nil_r.
Qed.

Lemma committed_step (evs : list event) (c : list row) (order_id : Z)
    (msg : position_update) (l : list websocket) :
  committed ((evs ++ [EvCommit c]) ++
             (EvBroadcast order_id msg :: ((λ ws, EvSend ws msg) <$> l)) ++ [EvSleep 2])
  = committed evs ++ [c].
Proof.
  rewrite !committed_app.
  change (committed (EvBroadcast order_id msg :: ((λ ws, EvSend ws msg) <$> l)))
    with (committed ((λ ws, EvSend ws msg) <$> l)).
  rewrite committed_sends. cbn. by rewrite app_nil_r.
Qed.

(** The samples of a run from index [i] with the battery at [battery_after i]. *)
Lemma simulate_loop_spec (order_id : Z) (drone_id : json) (total : Z)
    (wps : list delivery_route) :
  ∀ (i : nat) (w : world),
    session w = [] →
    let k := accepted (commit_outcomes w) (length wps) in
    let samples :=
      imap (λ j wp, simulated_sample order_id drone_id total (Z.of_nat (i + j))
                      (battery_after (i + j)) wp) wps in
    let msgs :=
      imap (λ j s, simulated_message total (Z.of_nat (i + j)) s) samples in
    let r := simulate_loop order_id drone_id total (Z.of_nat i) (battery_after i) wps w in
    r.1 = (if decide (k = length wps) then Ok () else Raise SQLAlchemyError)
    ∧ delivery_tracking_rows (db r.2) = delivery_tracking_rows (db w) ++ take k samples
    ∧ delivery_routes (db r.2) = delivery_routes (db w)
    ∧ published (events r.2) = published (events w) ++ take k msgs
    ∧ committed (events r.2) =
        committed (events w) ++ ((λ s, [TrackingRow s]) <$> take k samples).
Proof.
  induction wps as [|wp wps IH]; intros i w Hs; cbv zeta.
  - cbn. rewrite !app_nil_r. done.
  - assert (Hnext : ∀ w', session w' = [] →
        accepted (commit_outcomes w) (length (wp :: wps))
        = S (accepted (commit_outcomes w') (length wps)) →
        commit_succeeds w 0 = true →
        ∀ s msg,
        s = simulated_sample order_id drone_id total (Z.of_nat i) (battery_after i) wp →
        msg = simulated_message total (Z.of_nat i) s →
        simulate_loop order_id drone_id total (Z.of_nat i) (battery_after i) (wp :: wps) w
        = simulate_loop order_id drone_id total (Z.of_nat (S i)) (battery_after (S i)) wps w' →
        delivery_tracking_rows (db w') = delivery_tracking_rows (db w) ++ [s] →
        delivery_routes (db w') = delivery_routes (db w) →
        published (events w') = published (events w) ++ [msg] →
        committed (events w') = committed (events w) ++ [[TrackingRow s]] →
        let k := accepted (commit_outcomes w) (length (wp :: wps)) in
        let samples :=
          imap (λ j wp, simulated_sample order_id drone_id total (Z.of_nat (i + j))
                          (battery_after (i + j)) wp) (wp :: wps) in
        let msgs := imap (λ j s, simulated_message total (Z.of_nat (i + j)) s) samples in
        let r := simulate_loop order_id drone_id total (Z.of_nat i) (battery_after i)
                   (wp :: wps) w in
        r.1 = (if decide (k = length (wp :: wps)) then Ok () else Raise SQLAlchemyError)
        ∧ delivery_tracking_rows (db r.2) = delivery_tracking_rows (db w) ++ take k samples
        ∧ delivery_routes (db r.2) = delivery_routes (db w)
        ∧ published (events r.2) = published (events w) ++ take k msgs
        ∧ committed (events r.2) =
            committed (events w) ++ ((λ s, [TrackingRow s]) <$> take k samples)).
    { intros w' Hs' Hk Hc s msg -> -> Hrun Ht Hr Hp Hcm. cbv zeta.
      rewrite Hrun, Hk. destruct (IH (S i) w' Hs') as (I1 & I2 & I3 & I4 & I5).
      rewrite I1, I2, I3, I4, I5, Ht, Hr, Hp, Hcm. rewrite !imap_cons.
      cbn [take length fmap list_fmap]. rewrite !Nat.add_0_r, <- !app_assoc.
      cbn [app].
      rewrite (imap_ext (λ j wp0, simulated_sample order_id drone_id total
                          (Z.of_nat (S i + j)) (battery_after (S i + j)) wp0)
                 ((λ j wp0, simulated_sample order_id drone_id total
                          (Z.of_nat (i + j)) (battery_after (i + j)) wp0) ∘ S))
        by (intros j x _; simpl; by rewrite Nat.add_succ_r).
      rewrite (imap_ext (λ j s, simulated_message total (Z.of_nat (S i + j)) s)
                 ((λ j s, simulated_message total (Z.of_nat (i + j)) s) ∘ S))
        by (intros j x _; simpl; by rewrite Nat.add_succ_r).
      repeat split.
      destruct (decide (accepted (commit_outcomes w') (length wps) = length wps));
        destruct (decide (S (accepted (commit_outcomes w') (length wps)) = S (length wps)));
        try done; lia. }
    assert (Hbat : (battery_after i - 0.5)%float = battery_after (S i)) by reflexivity.
    assert (Hidx : Z.of_nat i + 1 = Z.of_nat (S i)) by lia.
    assert (Hstep : commit_succeeds w 0 = true →
        accepted (commit_outcomes w) (length (wp :: wps))
        = S (accepted (tail (commit_outcomes w)) (length wps)) →
        let k := accepted (commit_outcomes w) (length (wp :: wps)) in
        let samples :=
          imap (λ j wp, simulated_sample order_id drone_id total (Z.of_nat (i + j))
                          (battery_after (i + j)) wp) (wp :: wps) in
        let msgs := imap (λ j s, simulated_message total (Z.of_nat (i + j)) s) samples in
        let r := simulate_loop order_id drone_id total (Z.of_nat i) (battery_after i)
                   (wp :: wps) w in
        r.1 = (if decide (k = length (wp :: wps)) then Ok () else Raise SQLAlchemyError)
        ∧ delivery_tracking_rows (db r.2) = delivery_tracking_rows (db w) ++ take k samples
        ∧ delivery_routes (db r.2) = delivery_routes (db w)
        ∧ published (events r.2) = published (events w) ++ take k msgs
        ∧ committed (events r.2) =
            committed (events w) ++ ((λ s, [TrackingRow s]) <$> take k samples)).
    { intros Hc Hk.
      pose proof (simulate_step_ok order_id drone_id total (Z.of_nat i) (battery_after i)
                    wp wps w Hs Hc) as Hrun.
      cbv zeta in Hrun. rewrite Hbat, Hidx in Hrun.
      eapply Hnext; [| |exact Hc|reflexivity|reflexivity|exact Hrun|..];
        cbn [session commit_outcomes db events delivery_tracking_rows delivery_routes].
      - reflexivity.
      - exact Hk.
      - reflexivity.
      - reflexivity.
      - apply published_step.
      - apply committed_step. }
    destruct (commit_outcomes w) as [|[] rest] eqn:Ho.
    + apply Hstep; [unfold commit_succeeds; by rewrite Ho|].
      cbn [accepted length tail]. by rewrite accepted_nil.
    + apply Hstep; [unfold commit_succeeds; by rewrite Ho|]. reflexivity.
    + destruct (simulate_step_fail order_id drone_id total (Z.of_nat i) (battery_after i)
                  wp wps w) as (F1 & F2 & F3); [unfold commit_succeeds; by rewrite Ho|].
      cbv zeta. rewrite F1, F2, F3. cbn [accepted length take fmap list_fmap].
      rewrite !app_nil_r. repeat split.
Qed.


Lemma accepted_le (outcomes : list bool) (n : nat) : (accepted outcomes n ≤ n)%nat.
Proof.
  revert outcomes. induction n as [|n IH]; intros [|[] rest]; simpl; try lia.
  specialize (IH rest). lia.
Qed.

(** X7: a run of the simulator with a fresh session stores one sample per
    waypoint, each in a transaction of its own, and publishes its message
    after the commit, in the order of the waypoints, until the store refuses
    a commit: then the run ends with the store's error, the samples committed
    so far stay, and neither that step's message nor any later one is
    published. Sample [j] carries altitude [50 + j mod 10], speed
    [25 + j mod 15], the battery after [j] decrements of 0.5 from 100, and
    status "landing" for the last waypoint and "in_flight" before. *)
Theorem simulation_stops_at_refused_commit (order_id : Z) (drone_id : json)
    (wps : list delivery_route) (w : world) :
  session w = [] →
  let n := length wps in
  let k := accepted (commit_outcomes w) n in
  let r := simulate_drone_movement order_id drone_id wps w in
  (k ≤ n)%nat
  ∧ r.1 = (if decide (k = n) then Ok () else Raise SQLAlchemyError)
  ∧ length (delivery_tracking_rows (db r.2)) = (length (delivery_tracking_rows (db w)) + k)%nat
  ∧ length (published (events r.2)) = (length (published (events w)) + k)%nat
  ∧ delivery_routes (db r.2) = delivery_routes (db w)
  ∧ ∀ j wp, (j < k)%nat → wps !! j = Some wp →
      let s := simulated_sample order_id drone_id (Z.of_nat n) (Z.of_nat j)
                 (battery_after j) wp in
      delivery_tracking_rows (db r.2) !! (length (delivery_tracking_rows (db w)) + j)%nat
        = Some s
      ∧ published (events r.2) !! (length (published (events w)) + j)%nat
        = Some (simulated_message (Z.of_nat n) (Z.of_nat j) s)
      ∧ committed (events r.2) !! (length (committed (events w)) + j)%nat
        = Some [TrackingRow s].
Proof.
  intros Hs. cbv zeta. unfold simulate_drone_movement.
  pose proof (accepted_le (commit_outcomes w) (length wps)) as Hle.
  destruct (simulate_loop_spec order_id drone_id (Z.of_nat (length wps)) wps 0 w Hs)
    as (I1 & I2 & I3 & I4 & I5).
  change (Z.of_nat 0) with 0 in *. change (battery_after 0) with 100%float in *.
  rewrite I1, I2, I3, I4, I5. split; [done|]. split; [done|].
  rewrite !length_app, !length_take, !length_imap.
  split; [lia|]. split; [lia|]. split; [done|].
  intros j wp Hj Hwp.
  rewrite !lookup_app_r by lia.
  replace (length (delivery_tracking_rows (db w)) + j - length (delivery_tracking_rows (db w)))%nat
    with j by lia.
  replace (length (published (events w)) + j - length (published (events w)))%nat
    with j by lia.
  replace (length (committed (events w)) + j - length (committed (events w)))%nat
    with j by lia.
  rewrite list_lookup_fmap, !lookup_take_lt by done.
  rewrite !list_lookup_imap, Hwp. done.
Qed.

(** X7 on two waypoints where the store refuses the second commit. *)
Lemma simulation_stops_at_refused_commit_witness :
  let wps := [DeliveryRoute 42 (JInt 3) 0 10.5 106.5 0;
              DeliveryRoute 42 (JInt 3) 1 10.6 106.6 60] in
  let w := World empty_database [] [true; false] ∅ (λ _, false) [] in
  (simulate_drone_movement 42 (JInt 3) wps w).1 = Raise SQLAlchemyError
  ∧ length (delivery_tracking_rows (db (simulate_drone_movement 42 (JInt 3) wps w).2))
    = 1%nat.
Proof.
  intros wps w.
  destruct (simulation_stops_at_refused_commit 42 (JInt 3) wps w eq_refl)
    as (_ & H1 & H2 & _).
  split; [exact H1 | exact H2].
Defined.

(** ** start_tracking without a drone *)

(** X8: for an accepted token and an order that the order service returns
    without a usable [drone_id] (the key is missing, null or 0),
    [start_tracking] answers 400 and leaves the state untouched: no waypoint
    is generated or stored. *)
Theorem start_tracking_without_drone (env : collaborators) (order_id : Z)
    (authorization : option string) (order : gmap string json) (w : world) :
  token_valid (user_service env) authorization = true →
  order_service env order_id authorization = Reply 200 (Some order) →
  order !! "drone_id" = None ∨ order !! "drone_id" = Some JNull
  ∨ order !! "drone_id" = Some (JInt 0) →
  start_tracking env order_id authorization w
  = (Raise (HTTPException 400 "No drone assigned to this order"), w).
Proof.
  intros Hv Ho Hd. unfold start_tracking.
  destruct (verify_token_valid _ _ w Hv) as (u & Hverify & Hu).
  rewrite (bind_ok _ _ _ _ _ Hverify).
  change (opt_dict_truthy (Some u)) with (dict_truthy u). rewrite Hu. cbn [negb].
  erewrite bind_ok;
    [|unfold try_except, lift_result; rewrite Ho, order_lookup_200; reflexivity].
  assert (Ht : truthy (dict_get order "drone_id") = false).
  { unfold dict_get. by destruct Hd as [->|[->| ->]]. }
  rewrite Ht. reflexivity.
Qed.

(** X8 for an order whose [drone_id] is 0. *)
Lemma start_tracking_without_drone_witness :
  let env := Collaborators (user_service friendly)
               (λ _ _, Reply 200 (Some {[ "drone_id" := JInt 0 ]})) in
  start_tracking env 42 (Some "Bearer t") quiet_world
  = (Raise (HTTPException 400 "No drone assigned to this order"), quiet_world).
Proof.
  intros env.
  apply (start_tracking_without_drone env 42 (Some "Bearer t")
           {[ "drone_id" := JInt 0 ]} quiet_world);
    [reflexivity | reflexivity | right; right; reflexivity].
Defined.

(** ** generate_waypoints with a negative count *)

(** X9: a negative [num_points] is not rejected either: [range] is empty, the
    loop takes no turn and the result is the empty route, without an error,
    for all coordinates. *)
Theorem generate_waypoints_negative (start_lat start_lng end_lat end_lng : float) (n : Z) :
  n < 0 → generate_waypoints start_lat start_lng end_lat end_lng n = Ok [].
Proof.
  intros Hn. unfold generate_waypoints, range.
  replace (Z.to_nat (n + 1)) with 0%nat by lia. reflexivity.
Qed.

(** X9 at [num_points = -3]: no waypoint and no error. *)
Lemma generate_waypoints_negative_witness :
  generate_waypoints 10.762622 106.660172 10.775845 106.701758 (-3) = Ok [].
Proof. apply generate_waypoints_negative. lia. Defined.

(** ** startup_event *)

Lemma startup_loop_spec (fuel : nat) (outcomes : list bool) :
  (fuel ≤ 30)%nat →
  startup_loop fuel 30 (30 - Z.of_nat fuel) outcomes =
  Some (30 - Z.of_nat fuel + Z.of_nat (leading_failures outcomes `min` fuel),
        concat (replicate (leading_failures outcomes `min` fuel)
                  [CreateAllFailed; StartupSleep 2])
        ++ (if decide (leading_failures outcomes < fuel)%nat then [CreateAllOk] else [])).
Proof.
  revert outcomes. induction fuel as [|fuel IH]; intros outcomes Hf.
  - simpl. rewrite Nat.min_0_r. reflexivity.
  - cbn [startup_loop].
    destruct (30 - Z.of_nat (S fuel) <? 30) eqn:E; [|apply Z.ltb_ge in E; lia].
    destruct outcomes as [|[] rest].
    + simpl. f_equal. f_equal. lia.
    + simpl. f_equal. f_equal. lia.
    + replace (30 - Z.of_nat (S fuel) + 1) with (30 - Z.of_nat fuel) by lia.
      rewrite IH by lia. cbn [leading_failures].
      rewrite <- Nat.succ_min_distr. cbn [replicate concat app].
      f_equal. f_equal; [lia|]. f_equal. f_equal.
      destruct (decide (leading_failures rest < fuel)%nat);
        destruct (decide (S (leading_failures rest) < S fuel)%nat); try done; lia.
Qed.

(** X10: [startup_event] always returns: it calls [create_all] until the
    first success and at most thirty times, sleeps two seconds after each
    failure, and after thirty failures it returns all the same, without
    tables and without an error. *)
Theorem startup_event_bounded (outcomes : list bool) :
  let f := (leading_failures outcomes `min` 30)%nat in
  startup_event outcomes =
  Some (Z.of_nat f,
        concat (replicate f [CreateAllFailed; StartupSleep 2])
        ++ (if decide (leading_failures outcomes < 30)%nat then [CreateAllOk] else [])).
Proof.
  cbv zeta. unfold startup_event.
  change 0 with (30 - Z.of_nat 30) at 1. rewrite startup_loop_spec by lia.
  reflexivity.
Qed.

(** ** drone_service: get_drone_from_order_service *)

Lemma find_drone_Some (drones : list (gmap string json)) (drone_id : Z)
    (d : gmap string json) :
  Drone.find_drone drones drone_id = Ok (Some d) →
  d ∈ drones ∧ ∃ v, d !! "id" = Some v ∧ Drone.json_eq_int v drone_id = true.
Proof.
  induction drones as [|d0 drones IH]; simpl; [discriminate|].
  destruct (d0 !! "id") as [v|] eqn:Hid; [|discriminate].
  destruct (Drone.json_eq_int v drone_id) eqn:Hv.
  - intros [= <-]. split; [left | eauto].
  - intros H. destruct (IH H) as [Hin Hd]. split; [by right | done].
Qed.

(** X11: [get_drone_from_order_service] returns a drone only when the order
    service answered 200 with a list, and then one of that list whose ["id"]
    equals the asked key; every failure is turned into [None]: an unreachable
    service, another status, and also an entry without ["id"] that comes
    before the match. *)
Theorem get_drone_from_order_service_sound (env : Drone.collaborators) (drone_id : Z) :
  (∀ d, Drone.get_drone_from_order_service env drone_id = Some d →
        ∃ drones v, Drone.order_service_drones env = Reply 200 (Some drones)
                    ∧ d ∈ drones ∧ d !! "id" = Some v
                    ∧ Drone.json_eq_int v drone_id = true)
  ∧ ((∀ drones, Drone.order_service_drones env ≠ Reply 200 (Some drones)) →
     Drone.get_drone_from_order_service env drone_id = None)
  ∧ (∀ d0 rest, Drone.order_service_drones env = Reply 200 (Some (d0 :: rest)) →
                d0 !! "id" = None →
                Drone.get_drone_from_order_service env drone_id = None).
Proof.
  unfold Drone.get_drone_from_order_service. split; [|split].
  - intros d. destruct (Drone.order_service_drones env) as [|sc [drones|]]; try discriminate.
    destruct (sc =? 200) eqn:Hsc; [|discriminate]. apply Z.eqb_eq in Hsc. subst sc.
    destruct (Drone.find_drone drones drone_id) as [o|] eqn:Hf; [|discriminate].
    intros ->. apply find_drone_Some in Hf as (Hin & v & Hid & Hv).
    exists drones, v. done.
  - intros Hn. destruct (Drone.order_service_drones env) as [|sc [drones|]]; try done.
    destruct (sc =? 200) eqn:Hsc; [|done]. apply Z.eqb_eq in Hsc. subst sc.
    by destruct (Hn drones).
  - intros d0 rest -> Hid. simpl. by rewrite Hid.
Qed.

(** X11 for a list whose first entry has no ["id"]. *)
Lemma get_drone_from_order_service_sound_witness :
  Drone.get_drone_from_order_service
    (Drone.Collaborators (λ _, Unreachable)
       (Reply 200 (Some [∅; {[ "id" := JInt 7 ]}]))) 7 = None.
Proof.
  eapply (get_drone_from_order_service_sound
            (Drone.Collaborators (λ _, Unreachable)
               (Reply 200 (Some [∅; {[ "id" := JInt 7 ]}]))) 7);
    reflexivity.
Defined.

(** ** drone_service: the role check *)

Lemma verify_token_state {W} us (authorization : option string) (w : W) r :
  (verify_token us authorization w).1 = r → verify_token us authorization w = (r, w).
Proof.
  rewrite verify_token_run. destruct authorization as [a|]; [|by intros <-].
  destruct (String.prefix "Bearer " a); by intros <-.
Qed.

(** X12: a handler of the drone service that declares the [Authorization]
    header answers 403 and leaves the state untouched when the token is
    accepted by the user service but the user's role is not one of the roles
    the endpoint is open to: "admin" or "restaurant" for a status update,
    "admin" alone for maintenance and alerts. *)
Theorem role_gate (denv : Drone.collaborators) (authorization : option string)
    (req : Drone.request) (w : Drone.world) (user : option (gmap string json)) :
  Drone.declares_authorization req = true →
  (verify_token (Drone.user_service denv) authorization w).1 = Ok user →
  opt_dict_truthy user && Drone.role_in (default ∅ user) (Drone.allowed_roles req) = false →
  Drone.serve denv authorization req w
  = (Raise (HTTPException 403 "Admin access required"), w).
Proof.
  intros Hd Hv Hr. apply verify_token_state in Hv.
  assert (Hg : ∀ roles, roles = Drone.allowed_roles req →
            negb (opt_dict_truthy user) || negb (Drone.role_in (default ∅ user) roles) = true).
  { intros roles ->. rewrite <- negb_andb, Hr. done. }
  destruct req; try discriminate Hd; unfold Drone.serve.
  - erewrite bind_raise; [reflexivity|]. unfold Drone.update_drone_status.
    rewrite (bind_ok _ _ _ _ _ Hv), Hg by reflexivity. reflexivity.
  - erewrite bind_raise; [reflexivity|]. unfold Drone.schedule_maintenance.
    rewrite (bind_ok _ _ _ _ _ Hv), Hg by reflexivity. reflexivity.
  - unfold Drone.complete_maintenance.
    rewrite (bind_ok _ _ _ _ _ Hv), Hg by reflexivity. reflexivity.
  - unfold Drone.resolve_alert.
    rewrite (bind_ok _ _ _ _ _ Hv), Hg by reflexivity. reflexivity.
Qed.

(** X12 for a user with the role "restaurant" who asks to resolve an alert. *)
Lemma role_gate_witness :
  let denv := Drone.Collaborators
                (λ _, Reply 200 (Some {[ "role" := JStr "restaurant" ]})) Unreachable in
  let w := Drone.World Drone.empty_database [] [] 0 [] in
  Drone.serve denv (Some "Bearer t") (Drone.ResolveAlert 1) w
  = (Raise (HTTPException 403 "Admin access required"), w).
Proof.
  intros denv w.
  apply (role_gate denv (Some "Bearer t") (Drone.ResolveAlert 1) w
           (Some {[ "role" := JStr "restaurant" ]})); reflexivity.
Defined.

(** ** drone_service: update_drone_status *)

Lemma drone_commit_ok (w : Drone.world) :
  Drone.commit_succeeds w 0 = true →
  Drone.db_commit w =
  (Ok (), Drone.World (foldl Drone.apply_op (Drone.db w) (Drone.session w)) []
            (tail (Drone.commit_outcomes w)) (Drone.now w)
            (Drone.events w ++ [Drone.EvCommit (Drone.session w)])).
Proof.
  unfold Drone.commit_succeeds, Drone.db_commit.
  destruct (Drone.commit_outcomes w) as [|[] ?]; simpl; [done | done | discriminate].
Qed.

Lemma drone_commit_fail (w : Drone.world) :
  Drone.commit_succeeds w 0 = false →
  Drone.db_commit w =
  (Raise SQLAlchemyError,
   Drone.World (Drone.db w) [] (tail (Drone.commit_outcomes w)) (Drone.now w)
     (Drone.events w)).
Proof.
  unfold Drone.commit_succeeds, Drone.db_commit.
  destruct (Drone.commit_outcomes w) as [|[] ?]; simpl; [discriminate | discriminate | done].
Qed.

Lemma update_drone_status_run (denv : Drone.collaborators) (drone_id : Z)
    (change : Drone.status_change) (authorization : option string) (w : Drone.world)
    (u : gmap string json) :
  (verify_token (Drone.user_service denv) authorization w).1 = Ok (Some u) →
  dict_truthy u = true → Drone.role_in u ["admin"; "restaurant"] = true →
  Drone.session w = [] → Drone.commit_succeeds w 0 = true →
  let new_status := Drone.status_value (Drone.sc_status change) in
  let previous := Drone.current_status (Drone.db w) drone_id in
  let record :=
    Drone.DroneStatusHistory drone_id new_status (Some previous)
      (Drone.sc_latitude change) (Drone.sc_longitude change)
      (Drone.reported_battery denv drone_id) (Drone.sc_reason change)
      (dict_get u "user_id") in
  let ops :=
    Drone.AddStatus record ::
    match Drone.sc_status change with
    | Drone.ERROR =>
      [Drone.AddAlert (Drone.DroneAlert drone_id "status_error" "high"
                         (Drone.StatusErrorMessage (Drone.sc_reason change)) 0 None)]
    | _ => []
    end in
  Drone.update_drone_status denv drone_id change authorization w =
  (Ok (previous, new_status),
   Drone.World (foldl Drone.apply_op (Drone.db w) ops) [] (tail (Drone.commit_outcomes w))
     (Drone.now w)
     (Drone.events w ++ [Drone.EvPutDrone drone_id new_status; Drone.EvCommit ops])).
Proof.
  intros Hv Hu Hr Hs Hc. cbv zeta. apply verify_token_state in Hv.
  unfold Drone.update_drone_status. rewrite (bind_ok _ _ _ _ _ Hv).
  change (opt_dict_truthy (Some u)) with (dict_truthy u).
  change (default ∅ (Some u)) with u. rewrite Hu, Hr. cbn [negb orb].
  erewrite bind_ok; [|reflexivity].
  erewrite bind_ok; [|reflexivity].
  erewrite bind_ok; [|reflexivity].
  destruct (Drone.sc_status change) eqn:Est;
    (erewrite bind_ok; [|reflexivity]);
    (erewrite bind_ok; [|apply drone_commit_ok; exact Hc]);
    cbn [Drone.db Drone.session Drone.events Drone.now Drone.commit_outcomes
         mret handler_ret]; rewrite Hs; cbn [app]; rewrite <- app_assoc; reflexivity.
Qed.

Lemma current_status_after (d : Drone.database) (drone_id : Z)
    (record : Drone.drone_status_history) m p b a :
  Drone.sh_drone_id record = drone_id →
  Drone.current_status
    (Drone.Database (Drone.drone_status_history_rows d ++ [record]) m p b a) drone_id
  = Drone.sh_status record.
Proof.
  intros H. unfold Drone.current_status. cbn [Drone.drone_status_history_rows].
  rewrite filter_app, filter_cons_True, filter_nil by done. by rewrite last_snoc.
Qed.

(** X13: a status update by a user with the role "admin" or "restaurant",
    with a fresh session and a commit that the store accepts, returns the
    latest status on record for the drone ("unknown" when it has none) as
    the previous one, appends exactly one history row that records previous
    and new status, adds a high-severity "status_error" alert exactly when
    the new status is ERROR, writes both in one transaction after the call
    to the order service, and leaves the other tables alone. The new status
    is then the one on record, so the next update reports it as previous. *)
Theorem update_drone_status_records_transition (denv : Drone.collaborators)
    (drone_id : Z) (change : Drone.status_change) (authorization : option string)
    (w : Drone.world) (u : gmap string json) :
  (verify_token (Drone.user_service denv) authorization w).1 = Ok (Some u) →
  dict_truthy u = true → Drone.role_in u ["admin"; "restaurant"] = true →
  Drone.session w = [] → Drone.commit_succeeds w 0 = true →
  let new_status := Drone.status_value (Drone.sc_status change) in
  let previous := Drone.current_status (Drone.db w) drone_id in
  let record :=
    Drone.DroneStatusHistory drone_id new_status (Some previous)
      (Drone.sc_latitude change) (Drone.sc_longitude change)
      (Drone.reported_battery denv drone_id) (Drone.sc_reason change)
      (dict_get u "user_id") in
  let alerts :=
    match Drone.sc_status change with
    | Drone.ERROR =>
      [Drone.DroneAlert drone_id "status_error" "high"
         (Drone.StatusErrorMessage (Drone.sc_reason change)) 0 None]
    | _ => []
    end in
  let r := Drone.update_drone_status denv drone_id change authorization w in
  r.1 = Ok (previous, new_status)
  ∧ Drone.drone_status_history_rows (Drone.db r.2)
    = Drone.drone_status_history_rows (Drone.db w) ++ [record]
  ∧ Drone.drone_alerts (Drone.db r.2) = Drone.drone_alerts (Drone.db w) ++ alerts
  ∧ Drone.drone_maintenance_rows (Drone.db r.2) = Drone.drone_maintenance_rows (Drone.db w)
  ∧ Drone.drone_performance_rows (Drone.db r.2) = Drone.drone_performance_rows (Drone.db w)
  ∧ Drone.drone_battery_logs (Drone.db r.2) = Drone.drone_battery_logs (Drone.db w)
  ∧ (∃ ops, Drone.events r.2
            = Drone.events w ++ [Drone.EvPutDrone drone_id new_status; Drone.EvCommit ops])
  ∧ Drone.current_status (Drone.db r.2) drone_id = new_status.
Proof.
  intros Hv Hu Hr Hs Hc. cbv zeta.
  rewrite (update_drone_status_run denv drone_id change authorization w u) by done.
  cbn [fst snd Drone.db Drone.events].
  destruct (Drone.sc_status change) eqn:Est;
    cbn [foldl Drone.apply_op Drone.drone_status_history_rows Drone.drone_alerts
         Drone.drone_maintenance_rows Drone.drone_performance_rows
         Drone.drone_battery_logs];
    rewrite ?app_nil_r; repeat split; eauto;
    by rewrite current_status_after.
Qed.

(** X13 for the first update of drone 7, to ERROR, by an admin. *)
Lemma update_drone_status_records_transition_witness :
  let denv := Drone.Collaborators
                (λ _, Reply 200 (Some {[ "role" := JStr "admin" ]})) Unreachable in
  let w := Drone.World Drone.empty_database [] [] 0 [] in
  (Drone.update_drone_status denv 7 (Drone.StatusChange Drone.ERROR None None None)
     (Some "Bearer t") w).1 = Ok ("unknown", "error").
Proof.
  intros denv w.
  destruct (update_drone_status_records_transition denv 7
              (Drone.StatusChange Drone.ERROR None None None) (Some "Bearer t") w
              {[ "role" := JStr "admin" ]}) as (H & _); [reflexivity..|].
  exact H.
Defined.

(** ** drone_service: maintenance *)

Lemma drone_commit_succeeds_tail (d : Drone.database) (s : list Drone.db_op)
    (o : list bool) (t : Z) (e : list Drone.event) (k : nat) :
  Drone.commit_succeeds (Drone.World d s (tail o) t e) k = default true (o !! S k).
Proof. unfold Drone.commit_succeeds. cbn [Drone.commit_outcomes]. by destruct o. Qed.



Lemma by_id_out_of_range {A} (rows : list A) (id : Z) :
  id ≤ 0 ∨ Z.of_nat (length rows) < id → Drone.by_id rows id = None.
Proof.
  intros H. unfold Drone.by_id. destruct (id <=? 0) eqn:E; [done|].
  apply Z.leb_gt in E. apply lookup_ge_None. lia.
Qed.

(** X15: [complete_maintenance] by an admin answers 404 and changes nothing
    when no maintenance row has the key (a key below 1 or above the number of
    rows). For a row that exists and a commit that is accepted it sets the
    completion date to now and the technician to the user, replaces the notes
    only by notes that are not empty, leaves every other maintenance row as
    it is, and appends an "idle" status row for the drone of the record, all
    in one transaction. *)
Theorem complete_maintenance_outcomes (denv : Drone.collaborators) (maintenance_id : Z)
    (notes : option string) (authorization : option string) (w : Drone.world)
    (u : gmap string json) :
  (verify_token (Drone.user_service denv) authorization w).1 = Ok (Some u) →
  dict_truthy u = true → Drone.role_in u ["admin"] = true →
  Drone.session w = [] →
  let rows := Drone.drone_maintenance_rows (Drone.db w) in
  let r := Drone.complete_maintenance denv maintenance_id notes authorization w in
  (maintenance_id ≤ 0 ∨ Z.of_nat (length rows) < maintenance_id →
   r = (Raise (HTTPException 404 "Maintenance record not found"), w))
  ∧ (∀ m, Drone.by_id rows maintenance_id = Some m → Drone.commit_succeeds w 0 = true →
       let m' :=
         Drone.DroneMaintenance (Drone.dm_drone_id m) (Drone.dm_maintenance_type m)
           (Drone.dm_scheduled_date m) (Some (Drone.now w)) (dict_get u "user_id")
           (match notes with
            | Some n => if String.eqb n "" then Drone.dm_notes m else Some n
            | None => Drone.dm_notes m
            end) in
       let idle :=
         Drone.DroneStatusHistory (Drone.dm_drone_id m) "idle" None None None JNull
           (Some "Maintenance completed") (dict_get u "user_id") in
       r.1 = Ok ()
       ∧ Drone.drone_maintenance_rows (Drone.db r.2)
         = <[Z.to_nat (maintenance_id - 1) := m']> rows
       ∧ Drone.drone_status_history_rows (Drone.db r.2)
         = Drone.drone_status_history_rows (Drone.db w) ++ [idle]
       ∧ Drone.drone_alerts (Drone.db r.2) = Drone.drone_alerts (Drone.db w)
       ∧ ∃ ops, Drone.events r.2 = Drone.events w ++ [Drone.EvCommit ops]).
Proof.
  intros Hv Hu Hr Hs. cbv zeta. apply verify_token_state in Hv.
  unfold Drone.complete_maintenance. rewrite (bind_ok _ _ _ _ _ Hv).
  change (opt_dict_truthy (Some u)) with (dict_truthy u).
  change (default ∅ (Some u)) with u. rewrite Hu, Hr. cbn [negb orb].
  erewrite bind_ok; [|reflexivity]. split.
  - intros Hid. rewrite by_id_out_of_range by done. reflexivity.
  - intros m Hm Hc. rewrite Hm.
    erewrite bind_ok; [|reflexivity].
    erewrite bind_ok; [|reflexivity].
    erewrite bind_ok; [|reflexivity].
    rewrite drone_commit_ok by exact Hc.
    cbn [fst snd Drone.db Drone.session Drone.events Drone.now]. rewrite Hs.
    cbn [app foldl Drone.apply_op Drone.drone_maintenance_rows
         Drone.drone_status_history_rows Drone.drone_alerts].
    repeat split; eauto.
Qed.

(** X15 for a key that no row has. *)
Lemma complete_maintenance_outcomes_witness :
  let denv := Drone.Collaborators
                (λ _, Reply 200 (Some {[ "role" := JStr "admin" ]})) Unreachable in
  let w := Drone.World Drone.empty_database [] [] 1000 [] in
  Drone.complete_maintenance denv 1 None (Some "Bearer t") w
  = (Raise (HTTPException 404 "Maintenance record not found"), w).
Proof.
  intros denv w.
  destruct (complete_maintenance_outcomes denv 1 None (Some "Bearer t") w
              {[ "role" := JStr "admin" ]}) as (H & _); [reflexivity..|].
  apply H. right. simpl. lia.
Defined.

(** ** drone_service: alerts *)

(** X16: [resolve_alert] by an admin answers 404 and changes nothing when no
    alert has the key; for an alert that exists and a commit that is accepted
    it marks that alert resolved at the current time and keeps its other
    columns, every other alert and the number of alerts. Resolving an alert
    that is resolved already succeeds again. *)
Theorem resolve_alert_outcomes (denv : Drone.collaborators) (alert_id : Z)
    (authorization : option string) (w : Drone.world) (u : gmap string json) :
  (verify_token (Drone.user_service denv) authorization w).1 = Ok (Some u) →
  dict_truthy u = true → Drone.role_in u ["admin"] = true →
  Drone.session w = [] →
  let alerts := Drone.drone_alerts (Drone.db w) in
  let r := Drone.resolve_alert denv alert_id authorization w in
  (alert_id ≤ 0 ∨ Z.of_nat (length alerts) < alert_id →
   r = (Raise (HTTPException 404 "Alert not found"), w))
  ∧ (∀ a, Drone.by_id alerts alert_id = Some a → Drone.commit_succeeds w 0 = true →
       let a' :=
         Drone.DroneAlert (Drone.al_drone_id a) (Drone.al_alert_type a)
           (Drone.al_severity a) (Drone.al_message a) 1 (Some (Drone.now w)) in
       r.1 = Ok ()
       ∧ Drone.drone_alerts (Drone.db r.2) = <[Z.to_nat (alert_id - 1) := a']> alerts
       ∧ length (Drone.drone_alerts (Drone.db r.2)) = length alerts
       ∧ Drone.by_id (Drone.drone_alerts (Drone.db r.2)) alert_id = Some a'
       ∧ (∀ other, other ≠ alert_id →
            Drone.by_id (Drone.drone_alerts (Drone.db r.2)) other
            = Drone.by_id alerts other)).
Proof.
  intros Hv Hu Hr Hs. cbv zeta. apply verify_token_state in Hv.
  unfold Drone.resolve_alert. rewrite (bind_ok _ _ _ _ _ Hv).
  change (opt_dict_truthy (Some u)) with (dict_truthy u).
  change (default ∅ (Some u)) with u. rewrite Hu, Hr. cbn [negb orb].
  erewrite bind_ok; [|reflexivity]. split.
  - intros Hid. rewrite by_id_out_of_range by done. reflexivity.
  - intros a Ha Hc. rewrite Ha.
    erewrite bind_ok; [|reflexivity].
    erewrite bind_ok; [|reflexivity].
    rewrite drone_commit_ok by exact Hc.
    cbn [fst snd Drone.db Drone.session Drone.events Drone.now]. rewrite Hs.
    cbn [app foldl Drone.apply_op Drone.drone_alerts].
    unfold Drone.by_id in Ha |- *. destruct (alert_id <=? 0) eqn:E; [discriminate|].
    apply Z.leb_gt in E. split; [done|]. split; [done|].
    split; [by rewrite length_insert|]. split.
    + apply list_lookup_insert_eq. by eapply lookup_lt_Some.
    + intros other Hne. destruct (other <=? 0) eqn:E'; [done|]. apply Z.leb_gt in E'.
      apply list_lookup_insert_ne. lia.
Qed.

(** X16 on one open alert. *)
Lemma resolve_alert_outcomes_witness :
  let denv := Drone.Collaborators
                (λ _, Reply 200 (Some {[ "role" := JStr "admin" ]})) Unreachable in
  let a := Drone.DroneAlert 7 "low_battery" "medium" (Drone.LowBatteryMessage 15) 0 None in
  let w := Drone.World (Drone.Database [] [] [] [] [a]) [] [] 1000 [] in
  Drone.al_is_resolved <$>
    Drone.drone_alerts (Drone.db (Drone.resolve_alert denv 1 (Some "Bearer t") w).2)
  = [1].
Proof.
  intros denv a w.
  destruct (resolve_alert_outcomes denv 1 (Some "Bearer t") w
              {[ "role" := JStr "admin" ]}) as (_ & H); [reflexivity..|].
  destruct (H a) as (_ & H' & _); [reflexivity | reflexivity |].
  rewrite H'. reflexivity.
Defined.

(** ** drone_service: log_battery_status *)

(** X17: [log_battery_status] with a fresh session stores the reading and
    its alerts in one transaction: a "low_battery" alert when the level is
    below 20, of severity "high" below 10 and "medium" otherwise, and a
    "battery_health" alert of severity "high" when a health percentage is
    given, is not zero and is below 60; a health of exactly 0 raises no
    alert. When the store refuses the commit nothing is stored. *)
Theorem log_battery_status_alerts (drone_id : Z) (battery_level : float)
    (voltage temperature health_percentage : option float) (charge_cycles : option Z)
    (w : Drone.world) :
  Drone.session w = [] →
  let entry :=
    Drone.DroneBatteryLog drone_id battery_level voltage temperature health_percentage
      charge_cycles in
  let low :=
    if (battery_level <? 20)%float then
      [Drone.DroneAlert drone_id "low_battery"
         (if (battery_level <? 10)%float then "high" else "medium")
         (Drone.LowBatteryMessage battery_level) 0 None]
    else [] in
  let degraded :=
    match health_percentage with
    | Some h =>
      if negb (h =? 0)%float && (h <? 60)%float then
        [Drone.DroneAlert drone_id "battery_health" "high" (Drone.BatteryHealthMessage h)
           0 None]
      else []
    | None => []
    end in
  let r := Drone.log_battery_status drone_id battery_level voltage temperature
             health_percentage charge_cycles w in
  (Drone.commit_succeeds w 0 = true →
   r.1 = Ok ()
   ∧ Drone.drone_battery_logs (Drone.db r.2) = Drone.drone_battery_logs (Drone.db w) ++ [entry]
   ∧ Drone.drone_alerts (Drone.db r.2) = Drone.drone_alerts (Drone.db w) ++ low ++ degraded
   ∧ Drone.drone_status_history_rows (Drone.db r.2)
     = Drone.drone_status_history_rows (Drone.db w)
   ∧ Drone.drone_maintenance_rows (Drone.db r.2) = Drone.drone_maintenance_rows (Drone.db w)
   ∧ Drone.drone_performance_rows (Drone.db r.2) = Drone.drone_performance_rows (Drone.db w)
   ∧ ∃ ops, Drone.events r.2 = Drone.events w ++ [Drone.EvCommit ops])
  ∧ (Drone.commit_succeeds w 0 = false →
     r.1 = Raise SQLAlchemyError ∧ Drone.db r.2 = Drone.db w
     ∧ Drone.events r.2 = Drone.events w).
Proof.
  intros Hs. cbv zeta. unfold Drone.log_battery_status.
  assert (Hcases :
    ∀ (m1 m2 : handler Drone.world ()) (ops1 ops2 : list Drone.db_op)
      (al1 al2 : list Drone.drone_alert),
      (∀ w0, m1 w0 = (Ok (), Drone.World (Drone.db w0) (Drone.session w0 ++ ops1)
                             (Drone.commit_outcomes w0) (Drone.now w0) (Drone.events w0))) →
      (∀ w0, m2 w0 = (Ok (), Drone.World (Drone.db w0) (Drone.session w0 ++ ops2)
                             (Drone.commit_outcomes w0) (Drone.now w0) (Drone.events w0))) →
      ops1 = Drone.AddAlert <$> al1 → ops2 = Drone.AddAlert <$> al2 →
      let entry :=
        Drone.DroneBatteryLog drone_id battery_level voltage temperature health_percentage
          charge_cycles in
      let r := (Drone.db_add (Drone.AddBatteryLog entry);; m1;; m2;; Drone.db_commit) w in
      (Drone.commit_succeeds w 0 = true →
       r.1 = Ok ()
       ∧ Drone.drone_battery_logs (Drone.db r.2)
         = Drone.drone_battery_logs (Drone.db w) ++ [entry]
       ∧ Drone.drone_alerts (Drone.db r.2) = Drone.drone_alerts (Drone.db w) ++ al1 ++ al2
       ∧ Drone.drone_status_history_rows (Drone.db r.2)
         = Drone.drone_status_history_rows (Drone.db w)
       ∧ Drone.drone_maintenance_rows (Drone.db r.2)
         = Drone.drone_maintenance_rows (Drone.db w)
       ∧ Drone.drone_performance_rows (Drone.db r.2)
         = Drone.drone_performance_rows (Drone.db w)
       ∧ ∃ ops, Drone.events r.2 = Drone.events w ++ [Drone.EvCommit ops])
      ∧ (Drone.commit_succeeds w 0 = false →
         r.1 = Raise SQLAlchemyError ∧ Drone.db r.2 = Drone.db w
         ∧ Drone.events r.2 = Drone.events w)).
  { intros m1 m2 ops1 ops2 al1 al2 Hm1 Hm2 -> ->. cbv zeta.
    erewrite bind_ok; [|reflexivity].
    erewrite bind_ok; [|apply Hm1].
    erewrite bind_ok; [|apply Hm2].
    cbn [Drone.db Drone.session Drone.events Drone.now Drone.commit_outcomes].
    rewrite Hs. cbn [app]. split; intros Hc.
    - rewrite drone_commit_ok by exact Hc.
      cbn [fst snd Drone.db Drone.session Drone.events Drone.now].
      cbn [foldl]. rewrite foldl_app. cbn [Drone.apply_op].
      assert (Hal : ∀ (al : list Drone.drone_alert) d,
                foldl Drone.apply_op d (Drone.AddAlert <$> al)
                = Drone.Database (Drone.drone_status_history_rows d)
                    (Drone.drone_maintenance_rows d) (Drone.drone_performance_rows d)
                    (Drone.drone_battery_logs d) (Drone.drone_alerts d ++ al)).
      { induction al as [|x al IH]; intros d; simpl.
        - rewrite app_nil_r. by destruct d.
        - rewrite IH. simpl. by rewrite <- app_assoc. }
      rewrite !Hal. cbn [Drone.drone_status_history_rows Drone.drone_maintenance_rows
        Drone.drone_performance_rows Drone.drone_battery_logs Drone.drone_alerts].
      rewrite <- app_assoc. repeat split; eauto.
    - rewrite drone_commit_fail by exact Hc. repeat split. }
  assert (Hret : ∀ w0 : Drone.world, (mret () : handler Drone.world ()) w0 =
            (Ok (), Drone.World (Drone.db w0) (Drone.session w0 ++ [])
                      (Drone.commit_outcomes w0) (Drone.now w0) (Drone.events w0))).
  { intros w0. rewrite app_nil_r. by destruct w0. }
  destruct (battery_level <? 20)%float;
    destruct health_percentage as [h|];
    try destruct (negb (h =? 0)%float && (h <? 60)%float);
    eapply Hcases;
    first [ exact Hret | intros w0; reflexivity | reflexivity ].
Qed.

(** X17 for a level of 5 and a health of 0. *)
Lemma log_battery_status_alerts_witness :
  let w := Drone.World Drone.empty_database [] [] 0 [] in
  Drone.al_severity <$>
    Drone.drone_alerts
      (Drone.db (Drone.log_battery_status 7 5 None None (Some 0%float) None w).2)
  = ["high"].
Proof.
  intros w.
  destruct (log_battery_status_alerts 7 5 None None (Some 0%float) None w eq_refl)
    as ((_ & _ & H & _) & _); [reflexivity|].
  rewrite H. reflexivity.
Defined.


(** ** drone_service: performance *)

(** X18: for a drone that has no performance row, [update_performance] fails
    with [TypeError] whatever the figures: the columns of the new object are
    still [None] when the handler adds to them. Nothing is committed. *)
Theorem update_performance_unknown_drone (drone_id deliveries_completed : Z)
    (distance_km : float) (flight_time_minutes : Z) (success : bool) (w : Drone.world) :
  Forall (λ p, Drone.dp_drone_id p ≠ drone_id) (Drone.drone_performance_rows (Drone.db w)) →
  let r := Drone.update_performance drone_id deliveries_completed distance_km
             flight_time_minutes success w in
  r.1 = Raise TypeError ∧ Drone.db r.2 = Drone.db w ∧ Drone.events r.2 = Drone.events w.
Proof.
  intros Hn. cbv zeta. unfold Drone.update_performance.
  erewrite bind_ok; [|reflexivity].
  apply (list_find_None (λ p, Drone.dp_drone_id p = drone_id)) in Hn. rewrite Hn.
  erewrite bind_ok; [|reflexivity].
  erewrite bind_raise; [|reflexivity]. repeat split.
Qed.

(** X18 on an empty store. *)
Lemma update_performance_unknown_drone_witness :
  (Drone.update_performance 7 1 5 30 true (Drone.World Drone.empty_database [] [] 0 [])).1
  = Raise TypeError.
Proof.
  destruct (update_performance_unknown_drone 7 1 5 30 true
              (Drone.World Drone.empty_database [] [] 0 [])) as (H & _).
  - constructor.
  - exact H.
Defined.

Lemma list_find_snoc_new {A} (P : A → Prop) `{!∀ x, Decision (P x)} (l : list A) (x : A) :
  Forall (λ y, ¬ P y) l → P x → list_find P (l ++ [x]) = Some (length l, x).
Proof.
  intros Hl Hx. apply list_find_Some. split; [|split].
  - by rewrite lookup_app_r, Nat.sub_diag by lia.
  - done.
  - intros j y Hj Hlt. rewrite lookup_app_l in Hj by done.
    rewrite Forall_forall in Hl. apply Hl. by eapply list_elem_of_lookup_2.
Qed.

(** X19: [get_drone_performance] returns the first performance row of the
    drone and changes nothing when there is one. When there is none (fresh
    session, accepted commit) it inserts a row with the column defaults (no
    deliveries, no distance, no flight time, speed 0, success rate 100,
    stamped with the current time) and returns it; a second call then finds that row and inserts nothing. *)
Theorem get_drone_performance_creates_once (drone_id : Z) (w : Drone.world) :
  let rows := Drone.drone_performance_rows (Drone.db w) in
  let fresh :=
    Drone.DronePerformance drone_id (Some 0) (Some 0%float) (Some 0) (Some 0%float)
      (Some 100%float) (Some (Drone.now w)) in
  (∀ i p, list_find (λ p, Drone.dp_drone_id p = drone_id) rows = Some (i, p) →
          Drone.get_drone_performance drone_id w = (Ok p, w))
  ∧ (Forall (λ p, Drone.dp_drone_id p ≠ drone_id) rows →
     Drone.session w = [] → Drone.commit_succeeds w 0 = true →
     let r := Drone.get_drone_performance drone_id w in
     r.1 = Ok fresh
     ∧ Drone.drone_performance_rows (Drone.db r.2) = rows ++ [fresh]
     ∧ Drone.get_drone_performance drone_id r.2 = (Ok fresh, r.2)).
Proof.
  cbv zeta. unfold Drone.get_drone_performance. split.
  - intros i p Hf. erewrite bind_ok; [|reflexivity]. by rewrite Hf.
  - intros Hn Hs Hc.
    pose proof Hn as Hn'.
    apply (list_find_None (λ p, Drone.dp_drone_id p = drone_id)) in Hn'.
    erewrite bind_ok; [|reflexivity]. rewrite Hn'.
    erewrite bind_ok; [|reflexivity].
    erewrite bind_ok; [|reflexivity].
    erewrite bind_ok; [|apply drone_commit_ok; exact Hc].
    cbn [fst snd Drone.db Drone.session mret handler_ret]. rewrite Hs.
    cbn [app foldl Drone.apply_op Drone.drone_performance_rows].
    split; [reflexivity|]. split; [reflexivity|].
    erewrite bind_ok; [|reflexivity].
    cbn [Drone.db Drone.drone_performance_rows].
    rewrite (list_find_snoc_new (λ p, Drone.dp_drone_id p = drone_id)); done.
Qed.

(** X19 on an empty store. *)
Lemma get_drone_performance_creates_once_witness :
  length (Drone.drone_performance_rows
            (Drone.db (Drone.get_drone_performance 7
                         (Drone.World Drone.empty_database [] [] 0 [])).2)) = 1%nat.
Proof.
  destruct (get_drone_performance_creates_once 7
              (Drone.World Drone.empty_database [] [] 0 [])) as (_ & H).
  destruct H as (_ & H & _); [constructor | reflexivity | reflexivity |].
  rewrite H. reflexivity.
Defined.



(** ** drone_service: check_battery_health *)

Lemma omap_all_None {A B} (f : A → option B) (l : list A) :
  Forall (λ x, f x = None) l → omap f l = [].
Proof. induction 1 as [|x l Hx _ IH]; [done|]. simpl. by rewrite Hx. Qed.

(** X21: [check_battery_health] answers "unknown" without a log. With logs
    of which none of the ten newest carries a health reading that counts as
    true (the reading is missing or 0), the average is 0 and the verdict is
    "poor" with the advice to replace the battery at once. *)
Theorem check_battery_health_without_readings (battery_logs : list (option float)) :
  Drone.check_battery_health [] = Ok (Drone.BatteryHealth "unknown" None "No data")
  ∧ (battery_logs ≠ [] →
     Forall (λ o, Drone.is_true_float o = None) (take 10 battery_logs) →
     Drone.check_battery_health battery_logs
     = Ok (Drone.BatteryHealth "poor" (Some 0%float) "Replace immediately")).
Proof.
  split; [reflexivity|]. intros Hne Hall. unfold Drone.check_battery_health.
  destruct battery_logs as [|o logs]; [done|].
  rewrite (omap_all_None _ _ Hall).
  change (take 10 (o :: logs)) with (o :: take 9 logs).
  cbn [length]. rewrite Nat2Z.inj_succ. 
  destruct (Z.succ (Z.of_nat (length (take 9 logs)))) as [|q|q] eqn:E; [lia| |lia].
  reflexivity.
Qed.

(** X21 for three logs without a usable reading. *)
Lemma check_battery_health_without_readings_witness :
  Drone.check_battery_health [None; Some 0%float; None]
  = Ok (Drone.BatteryHealth "poor" (Some 0%float) "Replace immediately").
Proof.
  apply (proj2 (check_battery_health_without_readings [None; Some 0%float; None]));
    [discriminate | repeat constructor].
Defined.
